(** * agentic: events, the browser-use tool and the RAG helper

    A shallow embedding of three modules of the [agentic] package,

    - [agentic/events.py]            (module [events]),
    - [agentic/tools/browser_use.py] (module [browser_use]),
    - [agentic/utils/rag_helper.py]  (module [rag_helper]),

    together with the properties of them that the specification states.

    Python values are embedded as the inductive type [pyval]; a raised
    exception is the left injection of [Exc]; code that talks to the vector
    database threads the database state explicitly (monad [Db]).  The
    third-party services (the Weaviate client, the embedding model, the
    browser agent, [hashlib], [pathlib]) are not part of the package: they
    enter as interfaces, and the statements quantify over them.  A small
    in-memory client, [weaviate.Mem], gives the interface a reference
    semantics on which the state-dependent properties are stated. *)

From Stdlib Require Import ZArith QArith.
From stdpp Require Import base option list gmap strings pretty.

Close Scope Q_scope.
Open Scope Z_scope.
Open Scope string_scope.

Set Default Proof Using "Type".

(** ** Python values and exceptions *)

Module Py.

(** The part of Python's value universe that the embedded code touches.
    Dicts are keyed by strings: every dict the code builds or indexes is. *)
#[warnings="-register-all"]
Inductive pyval : Type :=
  | PNone
  | PBool (b : bool)
  | PInt (z : Z)
  | PFloat (q : Q)
  | PStr (s : string)
  | PList (l : list pyval)
  | PDict (d : gmap string pyval).

(** The exceptions that can surface. [ClientError] stands for whatever the
    external service raises by itself. *)
Inductive exn : Type :=
  | KeyError (key : string)
  | IndexError (msg : string)
  | TypeError (msg : string)
  | RuntimeError (msg : string)
  | ClientError (msg : string).

(** A computation that returns a value or raises. *)
Definition Exc (A : Type) : Type := (exn + A)%type.

Definition ret {A} (a : A) : Exc A := inr a.
Definition raise {A} (e : exn) : Exc A := inl e.
Definition bind {A B} (m : Exc A) (k : A → Exc B) : Exc B :=
  match m with
  | inl e => inl e
  | inr a => k a
  end.

(** [bool(v)] *)
Definition truthy (v : pyval) : bool :=
  match v with
  | PNone => false
  | PBool b => b
  | PInt z => negb (z =? 0)%Z
  | PFloat q => negb (Qnum q =? 0)%Z
  | PStr s => negb (String.eqb s "")
  | PList l => match l with [] => false | _ => true end
  | PDict d => negb (bool_decide (d = ∅ :> gmap string pyval))
  end.

(** [a or b] *)
Definition py_or (a b : pyval) : pyval := if truthy a then a else b.

(** [v == s] for a [str] object [s]: only an equal string compares equal. *)
Definition eq_str (v : pyval) (s : string) : bool :=
  match v with
  | PStr t => String.eqb t s
  | _ => false
  end.

(** [d[k]] for a string key. *)
Definition dict_getitem (d : pyval) (k : string) : Exc pyval :=
  match d with
  | PDict m =>
      match m !! k with
      | Some v => ret v
      | None => raise (KeyError k)
      end
  | PList _ | PStr _ => raise (TypeError "indices must be integers")
  | _ => raise (TypeError "object is not subscriptable")
  end.

(** [l[i]] for an integer index; a negative index counts from the end. *)
Definition list_getitem (l : pyval) (i : Z) : Exc pyval :=
  match l with
  | PList xs =>
      let n := Z.of_nat (length xs) in
      let j := if (i <? 0)%Z then (i + n)%Z else i in
      if ((j <? 0)%Z || (n <=? j)%Z)%bool then raise (IndexError "list index out of range")
      else match xs !! Z.to_nat j with
           | Some v => ret v
           | None => raise (IndexError "list index out of range")
           end
  | PDict _ => raise (KeyError (pretty i))
  | _ => raise (TypeError "object is not subscriptable")
  end.

(** [d.get(k, default)] on a dict. *)
Definition dict_get (m : gmap string pyval) (k : string) (dflt : pyval) : pyval :=
  default dflt (m !! k).

(** [sep.join(parts)] *)
Fixpoint join (sep : string) (parts : list string) : string :=
  match parts with
  | [] => ""
  | [p] => p
  | p :: rest => p ++ sep ++ join sep rest
  end.

(** The one-character string of a line feed, Python's backslash-n. *)
Definition newline : string := String (Ascii.ascii_of_nat 10) EmptyString.

(** [s.startswith(prefix)] *)
Definition startswith (s p : string) : bool := String.prefix p s.

(** Binding of a call made with keyword arguments only to a function whose
    parameters are [params], none of them with a default: a keyword that is
    no parameter, or a parameter left without argument, is a [TypeError]. *)
Definition kwargs : Type := list (string * pyval).

Fixpoint unexpected_keyword (params : list string) (kw : kwargs) : option string :=
  match kw with
  | [] => None
  | (k, _) :: rest =>
      if bool_decide (k ∈ params) then unexpected_keyword params rest else Some k
  end.

Fixpoint missing_argument (params : list string) (kw : kwargs) : option string :=
  match params with
  | [] => None
  | p :: rest =>
      if bool_decide (p ∈ kw.*1) then missing_argument rest kw else Some p
  end.

Definition bind_keywords (fname : string) (params : list string) (kw : kwargs)
  : Exc (gmap string pyval) :=
  match unexpected_keyword params kw with
  | Some k =>
      raise (TypeError (fname ++ "() got an unexpected keyword argument '" ++ k ++ "'"))
  | None =>
      match missing_argument params kw with
      | Some p =>
          raise (TypeError (fname ++ "() missing 1 required positional argument: '" ++ p ++ "'"))
      | None => ret (list_to_map kw)
      end
  end.

(** [sub in s] for two strings. *)
Fixpoint is_substring (sub s : string) : bool :=
  String.prefix sub s ||
  match s with
  | EmptyString => false
  | String _ rest => is_substring sub rest
  end.

(** [k in d] for a [str] object [k]: a key of a dict, an element of a list,
    a substring of a string; anything else is not iterable. *)
Definition contains (d : pyval) (k : string) : Exc bool :=
  match d with
  | PDict m => ret (bool_decide (is_Some (m !! k)))
  | PList l => ret (existsb (λ x, eq_str x k) l)
  | PStr s => ret (is_substring k s)
  | _ => raise (TypeError "argument is not iterable")
  end.

(** The character of the one-character string ",". *)
Definition comma : Ascii.ascii := Ascii.ascii_of_nat 44.

(** [s.split(sep)] for a separator of one character. *)
Fixpoint split_on (sep : Ascii.ascii) (s : string) : list string :=
  match s with
  | EmptyString => [EmptyString]
  | String c rest =>
      if Ascii.eqb c sep then EmptyString :: split_on sep rest
      else match split_on sep rest with
           | piece :: pieces => String c piece :: pieces
           | [] => [String c EmptyString]
           end
  end.

(** The values that can be members of a set: lists and dicts cannot. *)
Definition hashable (v : pyval) : bool :=
  match v with
  | PList _ | PDict _ => false
  | _ => true
  end.

Definition as_number (v : pyval) : option Q :=
  match v with
  | PBool b => Some (inject_Z (if b then 1 else 0))
  | PInt z => Some (inject_Z z)
  | PFloat q => Some q
  | _ => None
  end.

(** [a == b] on hashable values: numbers compare by value across [bool],
    [int] and [float]; a string equals an equal string, [None] equals
    [None]. *)
Definition key_eqb (a b : pyval) : bool :=
  match a, b with
  | PNone, PNone => true
  | PStr x, PStr y => String.eqb x y
  | _, _ =>
      match as_number a, as_number b with
      | Some x, Some y => Qeq_bool x y
      | _, _ => false
      end
  end.

(** [x in seen] for a set [seen], held as the list of its members. *)
Definition set_contains (seen : list pyval) (x : pyval) : Exc bool :=
  if hashable x then ret (existsb (key_eqb x) seen)
  else raise (TypeError "unhashable type").

End Py.

Import Py.

Declare Scope exc_scope.
Delimit Scope exc_scope with exc.
Notation "'let*' x ':=' m 'in' k" := (Py.bind m (λ x, k))
  (at level 10, x name, m at level 100, k at level 200) : exc_scope.

(** ** agentic/events.py *)

Module events.

(** [@dataclass class Event]: agent, type, payload, depth (default 0). The
    fields are not checked against their annotations; [agent] holds whatever
    the caller passes. *)
Record Event : Type := mkEvent {
  agent : pyval;
  type : string;
  payload : pyval;
  depth : Z
}.

Module FinishCompletion.

Definition MODEL_KEY := "model".
Definition COST_KEY := "cost".
Definition INPUT_TOKENS_KEY := "input_tokens".
Definition OUTPUT_TOKENS_KEY := "output_tokens".
Definition ELAPSED_TIME_KEY := "elapsed_time".

(** A [FinishCompletion] is an [Event] with the extra attribute
    [metadata]. *)
Record t : Type := mk {
  event : Event;
  metadata : gmap string pyval
}.

(** [__init__(self, agent, llm_message, metadata)] *)
Definition init (agent : pyval) (llm_message : pyval)
    (metadata : gmap string pyval) : t :=
  {| event := mkEvent agent "completion_end" llm_message 0;
     metadata := metadata |}.

(** The parameters of the class method [create], after [cls]. *)
Definition create_params : list string :=
  ["agent"; "llm_message"; "model"; "cost"; "input_tokens"; "output_tokens";
   "elapsed_time"].

(** The body of [create], on bound arguments. *)
Definition create_body (agent llm_message model cost input_tokens
    output_tokens elapsed_time : pyval) : t :=
  let meta : gmap string pyval :=
    <[ELAPSED_TIME_KEY := py_or elapsed_time (PInt 0)]>
    (<[OUTPUT_TOKENS_KEY := py_or output_tokens (PInt 0)]>
    (<[INPUT_TOKENS_KEY := py_or input_tokens (PInt 0)]>
    (<[COST_KEY := py_or cost (PInt 0)]>
    (<[MODEL_KEY := model]> ∅)))) in
  init agent llm_message meta.

(** [FinishCompletion.create] called with the keyword arguments [kw], as the
    interpreter performs the call: keyword binding first, then the body.
    After the binding every parameter has its argument. *)
Definition create (kw : kwargs) : Exc t :=
  (let* args := bind_keywords "FinishCompletion.create" create_params kw in
   ret (create_body
          (default PNone (args !! "agent"))
          (default PNone (args !! "llm_message"))
          (default PNone (args !! "model"))
          (default PNone (args !! "cost"))
          (default PNone (args !! "input_tokens"))
          (default PNone (args !! "output_tokens"))
          (default PNone (args !! "elapsed_time"))))%exc.

(** The property [response]. *)
Definition response (e : t) : pyval := payload (event e).

End FinishCompletion.

Module TurnEnd.

(** [__init__(self, agent, messages, context_variables)] *)
Definition init (agent : string) (messages : list pyval)
    (context_variables : gmap string pyval) : Event :=
  mkEvent (PStr agent) "turn_end"
    (PDict (<["vars" := PDict context_variables]>
           (<["messages" := PList messages]> ∅))) 0.

(** The property [messages]. *)
Definition messages (e : Event) : Exc pyval :=
  dict_getitem (payload e) "messages".

(** The property [result]: [self.messages[-1]['content']]. *)
Definition result (e : Event) : Exc pyval :=
  (let* ms := messages e in
   let* m := list_getitem ms (-1) in
   dict_getitem m "content")%exc.

(** The property [context_variables]. *)
Definition context_variables (e : Event) : Exc pyval :=
  dict_getitem (payload e) "vars".

End TurnEnd.

Definition PAUSE_FOR_INPUT_SENTINEL := "__PAUSE4INPUT__".
Definition PAUSE_FOR_CHILD_SENTINEL := "__PAUSE__CHILD".
Definition FINISH_AGENT_SENTINEL := "__FINISH__".

(** Modelled from the spec: the base class [Result] of [agentic.swarm.types]
    is not among the sources. The three subclasses below construct it with
    the keyword arguments [value] and [context_variables] only, so it is
    taken to be the carrier of these two fields, [context_variables]
    defaulting to the empty dict. *)
Record Result : Type := mkResult {
  value : pyval;
  context_variables : gmap string pyval
}.

Module PauseForInputResult.
Definition init (request_keys : gmap string pyval) : Result :=
  mkResult (PStr PAUSE_FOR_INPUT_SENTINEL) request_keys.
Definition matches_sentinel (value : pyval) : bool :=
  eq_str value PAUSE_FOR_INPUT_SENTINEL.
End PauseForInputResult.

Module PauseForChildResult.
Definition init (values : gmap string pyval) : Result :=
  mkResult (PStr PAUSE_FOR_CHILD_SENTINEL) values.
Definition matches_sentinel (value : pyval) : bool :=
  eq_str value PAUSE_FOR_CHILD_SENTINEL.
End PauseForChildResult.

Module FinishAgentResult.
Definition init : Result :=
  mkResult (PStr FINISH_AGENT_SENTINEL) ∅.
Definition matches_sentinel (value : pyval) : bool :=
  eq_str value FINISH_AGENT_SENTINEL.
End FinishAgentResult.

(** [Event._safe(self, d, keys, default_val)]: follows [keys] into nested
    containers. *)
Fixpoint _safe (d : pyval) (keys : list string) (default_val : pyval)
  : Exc pyval :=
  match keys with
  | [] => ret (py_or d default_val)
  | k :: rest =>
      (let* present := contains d k in
       if present
       then let* inner := dict_getitem d k in _safe inner rest default_val
       else ret default_val)%exc
  end.

(** The constructors of the other event classes. Those that add attributes
    to the four fields of [Event] are records around it. *)
Module Prompt.
Record t : Type := mk {
  event : Event;
  debug : bool;
  originator : pyval;
  ignore_result : bool
}.
Definition init (agent message : string) (depth : Z) (debug : bool)
    (originator : pyval) (ignore_result : bool) : t :=
  mk (mkEvent (PStr agent) "prompt" (PStr message) depth) debug originator
     ignore_result.
End Prompt.

Module PromptStarted.
Definition init (agent message : string) (depth : Z) : Event :=
  mkEvent (PStr agent) "prompt_stated" (PStr message) depth.
End PromptStarted.

Module ResetHistory.
Definition init (agent : string) : Event :=
  mkEvent (PStr agent) "reset_history" (PDict ∅) 0.
End ResetHistory.

Module Output.
Definition init (agent message : string) (depth : Z) : Event :=
  mkEvent (PStr agent) "output" (PStr message) depth.
End Output.

Module ChatOutput.
Definition init (agent : string) (payload : gmap string pyval) (depth : Z) : Event :=
  mkEvent (PStr agent) "chat_output" (PDict payload) depth.
End ChatOutput.

Module ToolCall.
Record t : Type := mk { event : Event; args : gmap string pyval }.
Definition init (agent name : string) (args : gmap string pyval) (depth : Z) : t :=
  mk (mkEvent (PStr agent) "tool_call" (PStr name) depth) args.
End ToolCall.

Module ToolResult.
Record t : Type := mk { event : Event; result : pyval }.
Definition init (agent name : string) (result : pyval) (depth : Z) : t :=
  mk (mkEvent (PStr agent) "tool_result" (PStr name) depth) result.
End ToolResult.

Module StartCompletion.
Definition init (agent : string) : Event :=
  mkEvent (PStr agent) "completion_start" (PDict ∅) 0.
End StartCompletion.

Module SetState.
Definition init (agent : string) (state : gmap string pyval) : Event :=
  mkEvent (PStr agent) "set_state" (PDict state) 0.
End SetState.

Module AddChild.
Record t : Type := mk { event : Event; handoff : bool }.
Definition init (agent : string) (actor_ref : pyval) (handoff : bool) : t :=
  mk (mkEvent (PStr agent) "add_child" actor_ref 0) handoff.
Definition actor_ref (e : t) : pyval := payload (event e).
End AddChild.

Module WaitForInput.
Definition init (agent : string) (request_keys : gmap string pyval) : Event :=
  mkEvent (PStr agent) "wait_for_input" (PDict request_keys) 0.
Definition request_keys (e : Event) : pyval := payload e.
End WaitForInput.

Module ResumeWithInput.
Definition init (agent : string) (request_keys : gmap string pyval) : Event :=
  mkEvent (PStr agent) "resume_with_input" (PDict request_keys) 0.
Definition request_keys (e : Event) : pyval := payload e.
End ResumeWithInput.

End events.

(** ** agentic/tools/browser_use.py *)

Module browser_use.

Import events.

(** What LangChain hands to [on_llm_end]: [llm_output] is absent or a dict
    whose entry [token_usage] maps counter names to integers. *)
Record LLMResult : Type := mkLLMResult {
  llm_output : option (gmap string (gmap string Z))
}.

Module TokenCounterStdOutCallback.

Record t : Type := mk {
  total_input_tokens : Z;
  total_output_tokens : Z
}.

Definition init : t := mk 0 0.

(** [on_llm_end(self, response)]; the two [print] calls write to standard
    output only and are left out. *)
Definition on_llm_end (self : t) (response : LLMResult) : t :=
  match llm_output response with
  | Some out =>
      if bool_decide (out = ∅) then self
      else
        let token_usage := default ∅ (out !! "token_usage") in
        let input_tokens := default 0 (token_usage !! "prompt_tokens") in
        let output_tokens := default 0 (token_usage !! "completion_tokens") in
        mk (total_input_tokens self + input_tokens)
           (total_output_tokens self + output_tokens)
  | None => self
  end.

End TokenCounterStdOutCallback.

(** The outcome of a successful [BrowserAgent.run()]: the LLM completions it
    made, each reported to the callbacks of the LLM, and the history's
    [extracted_content()]. *)
Record AgentHistoryList : Type := mkHistory {
  llm_calls : list LLMResult;
  extracted_content : list string
}.

Record Browser : Type := mkBrowser { chrome_instance_path_of : string }.

Record RunContext : Type := mkRunContext { agent_name : string }.

Module BrowserUseTool.

Record t : Type := mk {
  chrome_instance_path : option string;
  model : string
}.

(** An element of the returned [list[str|FinishCompletion]]. *)
Inductive item : Type :=
  | Text (s : string)
  | Completion (e : FinishCompletion.t).

Section run.

(** The external browser agent: task, model name and browser in, history out
    (or an exception). *)
Variable BrowserAgent_run : string → string → option Browser → Exc AgentHistoryList.

Definition run_browser_agent (self : t) (run_context : RunContext)
    (instructions : string) (model_arg : option string) : Exc (list item) :=
  let browser :=
    match chrome_instance_path self with
    | Some path => if String.eqb path "" then None else Some (mkBrowser path)
    | None => None
    end in
  let token_counter := TokenCounterStdOutCallback.init in
  (let* result := BrowserAgent_run instructions (model self) browser in
   let token_counter :=
     foldl TokenCounterStdOutCallback.on_llm_end token_counter (llm_calls result) in
   let total_in := TokenCounterStdOutCallback.total_input_tokens token_counter in
   let total_out := TokenCounterStdOutCallback.total_output_tokens token_counter in
   let text := join newline (extracted_content result) in
   let* completion :=
     FinishCompletion.create
       [("agent", PStr (agent_name run_context));
        ("llm_message",
           PStr ("Tokens used - Input: " ++ pretty total_in ++ ", Output: "
                 ++ pretty total_out));
        ("model", PStr (model self));
        ("cost", PInt 0);
        ("input_tokens", PInt total_in);
        ("output_tokens", PInt total_out);
        ("elapsed_time", PInt 0);
        ("depth", PInt 0)] in
   ret [Text text; Completion completion])%exc.

End run.

End BrowserUseTool.

End browser_use.

(** ** The vector database client

    The Weaviate client is a third-party library. What the helper module
    uses of it is collected in two interfaces: [Client], the operations on
    a database whose state has type [St], and [Searchable], the vector
    search of a collection object. *)

Module weaviate.

Inductive VectorDistances : Type := COSINE | DOT | L2_SQUARED | HAMMING | MANHATTAN.

Inductive DataType : Type := TEXT | INT | DATE.

Record Property : Type := mkProperty {
  name : string;
  data_type : DataType;
  index_filterable : option bool;
  index_range_filter : option bool;
  index_searchable : option bool
}.

Inductive Vectorizer : Type := Vectorizer_none.

(** The arguments of [collections.create]. *)
Record CollectionConfig : Type := mkConfig {
  cfg_properties : list Property;
  vectorizer_config : Vectorizer;
  distance_metric : VectorDistances
}.

(** [Filter.by_property(prop).equal(v)], the only filter the module builds. *)
Inductive Filter : Type :=
  | by_property_equal (prop : string) (v : pyval).

(** An object as the client returns it: its properties and its vectors by
    name (a vector given without a name is stored under "default"). *)
Record Object : Type := mkObject {
  properties : gmap string pyval;
  vector : gmap string (list Q)
}.

(** An object of a vector search result, with [metadata.distance]. *)
Record Hit : Type := mkHit {
  hit_properties : gmap string pyval;
  hit_distance : pyval
}.

(** The keyword arguments of [query.near_vector] besides the vector. *)
Record SearchParams : Type := mkSearchParams {
  limit : Z;
  return_metadata : list string;
  return_properties : list string;
  filters : option Filter
}.

(** The result of [data.delete_many]. *)
Record DeleteManyReturn : Type := mkDeleteManyReturn {
  failed : Z;
  matches : Z;
  successful : Z
}.

(** A computation on the database: it returns or raises, and leaves a
    state behind in both cases. *)
Definition Db (St A : Type) : Type := St → Exc A * St.

Module Db.
Definition ret {St A} (a : A) : Db St A := λ s, (inr a, s).
Definition raise {St A} (e : exn) : Db St A := λ s, (inl e, s).
Definition bind {St A B} (m : Db St A) (k : A → Db St B) : Db St B :=
  λ s, match m s with
       | (inl e, s') => (inl e, s')
       | (inr a, s') => k a s'
       end.
(** A read-only request. *)
Definition query {St A} (q : St → Exc A) : Db St A := λ s, (q s, s).
(** [for x in xs: body(x)] *)
Fixpoint for_each {St A} (xs : list A) (body : A → Db St unit) : Db St unit :=
  match xs with
  | [] => ret tt
  | x :: rest => bind (body x) (λ _, for_each rest body)
  end.
End Db.

(** A collection is addressed by its name: [collections.get] makes no
    request of its own. *)
Class Client (St : Type) : Type := {
  collections_exists : string → St → Exc bool;
  collections_create : string → CollectionConfig → Db St unit;
  collections_delete : string → Db St unit;
  query_fetch_objects : string → Z → option Filter → St → Exc (list Object);
  aggregate_over_all : string → option Filter → St → Exc Z;
  data_delete_many : string → Filter → Db St DeleteManyReturn;
  batch_add_object : string → gmap string pyval → list Q → Db St unit;
  iterator : string → bool → St → Exc (list Object)
}.

(** Two more requests: the names of the collections, in the order of the
    dict that [collections.list_all] returns, and [query.fetch_objects]
    with its keyword arguments [return_properties] and [include_vector]. *)
Class Inspect (St : Type) : Type := {
  collections_list_all : St → Exc (list string);
  query_fetch_objects_with :
    string → Z → option Filter → option (list string) → bool → St →
    Exc (list Object)
}.

Class Searchable (C : Type) : Type :=
  query_near_vector : C → list Q → SearchParams → Exc (list Hit).

(** Equality of a stored property with a filter value, on the scalar types
    that equality filters are defined for. *)
Definition scalar_eqb (a b : pyval) : bool :=
  match a, b with
  | PStr s, PStr t => String.eqb s t
  | PInt x, PInt y => (x =? y)%Z
  | PBool x, PBool y => Bool.eqb x y
  | _, _ => false
  end.

Definition satisfies (f : option Filter) (props : gmap string pyval) : bool :=
  match f with
  | None => true
  | Some (by_property_equal p v) =>
      match props !! p with
      | Some w => scalar_eqb w v
      | None => false
      end
  end.

(** *** A reference client held in memory

    Collections by name, each with its configuration and its objects in
    the order the client lists them. [query_maximum_results] is the
    server's bound on the number of objects one [delete_many] request
    removes. *)
Module Mem.

Record Collection : Type := mkCollection {
  config : CollectionConfig;
  objects : list Object
}.

Record State : Type := mkState {
  collections : gmap string Collection;
  query_maximum_results : nat
}.

Definition set_collections (s : State) (m : gmap string Collection) : State :=
  mkState m (query_maximum_results s).

Definition no_collection (name : string) : exn :=
  ClientError ("no collection named " ++ name).

Definition matching (f : option Filter) (os : list Object) : list Object :=
  List.filter (λ o, satisfies f (properties o)) os.

(** Removes the first [n] objects that satisfy [f]. *)
Fixpoint remove_first (n : nat) (f : Filter) (os : list Object) : list Object :=
  match os with
  | [] => []
  | o :: rest =>
      if satisfies (Some f) (properties o) then
        match n with
        | O => o :: rest
        | S n' => remove_first n' f rest
        end
      else o :: remove_first n f rest
  end.

Definition exists_ (name : string) (s : State) : Exc bool :=
  inr (bool_decide (is_Some (collections s !! name))).

Definition create (name : string) (cfg : CollectionConfig) : Db State unit :=
  λ s, match collections s !! name with
       | Some _ => (inl (ClientError ("collection " ++ name ++ " already exists")), s)
       | None => (inr tt, set_collections s (<[name := mkCollection cfg []]> (collections s)))
       end.

Definition delete (name : string) : Db State unit :=
  λ s, (inr tt, set_collections s (base.delete name (collections s))).

Definition without_vector (o : Object) : Object := mkObject (properties o) ∅.

Definition fetch_objects (name : string) (lim : Z) (f : option Filter)
    (s : State) : Exc (list Object) :=
  match collections s !! name with
  | Some c => inr (without_vector <$> take (Z.to_nat lim) (matching f (objects c)))
  | None => inl (no_collection name)
  end.

Definition over_all (name : string) (f : option Filter) (s : State) : Exc Z :=
  match collections s !! name with
  | Some c => inr (Z.of_nat (length (matching f (objects c))))
  | None => inl (no_collection name)
  end.

Definition delete_many (name : string) (f : Filter) : Db State DeleteManyReturn :=
  λ s, match collections s !! name with
       | Some c =>
           let found := length (matching (Some f) (objects c)) in
           let n := Nat.min found (query_maximum_results s) in
           (inr (mkDeleteManyReturn 0 (Z.of_nat n) (Z.of_nat n)),
            set_collections s
              (<[name := mkCollection (config c) (remove_first n f (objects c))]>
                 (collections s)))
       | None => (inl (no_collection name), s)
       end.

Definition add_object (name : string) (props : gmap string pyval) (v : list Q)
  : Db State unit :=
  λ s, match collections s !! name with
       | Some c =>
           (inr tt,
            set_collections s
              (<[name := mkCollection (config c)
                           (objects c ++ [mkObject props {["default" := v]}])]>
                 (collections s)))
       | None => (inl (no_collection name), s)
       end.

Definition iterate (name : string) (include_vector : bool) (s : State)
  : Exc (list Object) :=
  match collections s !! name with
  | Some c => inr (if include_vector then objects c else without_vector <$> objects c)
  | None => inl (no_collection name)
  end.

#[global] Instance client : Client State := {|
  collections_exists := exists_;
  collections_create := create;
  collections_delete := delete;
  query_fetch_objects := fetch_objects;
  aggregate_over_all := over_all;
  data_delete_many := delete_many;
  batch_add_object := add_object;
  iterator := iterate
|}.

Definition list_all (s : State) : Exc (list string) :=
  inr ((map_to_list (collections s)).*1).

(** The object as a request with [return_properties] and [include_vector]
    shows it. *)
Definition shown (return_properties : option (list string))
    (include_vector : bool) (o : Object) : Object :=
  mkObject
    (match return_properties with
     | Some names => filter (λ kv, kv.1 ∈ names) (properties o)
     | None => properties o
     end)
    (if include_vector then vector o else ∅).

Definition fetch_objects_with (name : string) (lim : Z) (f : option Filter)
    (return_properties : option (list string)) (include_vector : bool)
    (s : State) : Exc (list Object) :=
  match collections s !! name with
  | Some c =>
      inr (shown return_properties include_vector
             <$> take (Z.to_nat lim) (matching f (objects c)))
  | None => inl (no_collection name)
  end.

#[global] Instance inspect : Inspect State := {|
  collections_list_all := list_all;
  query_fetch_objects_with := fetch_objects_with
|}.

End Mem.

(** *** A collection with prepared search results

    The hits it holds are returned in their order, restricted to those that
    satisfy the filter of the request and cut at its limit. *)
Module Canned.

Record Collection : Type := mkCollection { hits : list Hit }.

Definition near_vector (c : Collection) (v : list Q) (p : SearchParams)
  : Exc (list Hit) :=
  inr (take (Z.to_nat (limit p))
         (List.filter (λ h, satisfies (filters p) (hit_properties h)) (hits c))).

#[global] Instance searchable : Searchable Collection := near_vector.

End Canned.

End weaviate.

Declare Scope db_scope.
Delimit Scope db_scope with db.
Notation "'let*' x ':=' m 'in' k" := (weaviate.Db.bind m (λ x, k))
  (at level 10, x name, m at level 100, k at level 200) : db_scope.

(** ** agentic/utils/rag_helper.py *)

Module rag_helper.

Import weaviate.

(** The schema that [create_collection] passes to the client. *)
Definition standard_properties : list Property :=
  [ mkProperty "content" TEXT None None None;
    mkProperty "document_id" TEXT (Some true) None None;
    mkProperty "chunk_index" INT (Some true) (Some true) None;
    mkProperty "filename" TEXT (Some true) None None;
    mkProperty "timestamp" DATE (Some true) None None;
    mkProperty "mime_type" TEXT (Some true) None None;
    mkProperty "source_url" TEXT (Some true) None None;
    mkProperty "summary" TEXT (Some true) None (Some true);
    mkProperty "fingerprint" TEXT (Some true) None None ].

Definition standard_config (distance_metric : VectorDistances) : CollectionConfig :=
  mkConfig standard_properties Vectorizer_none distance_metric.

Definition document_id_is (document_id : string) : Filter :=
  by_property_equal "document_id" (PStr document_id).

Section client.

Context {St : Type} `{!Client St}.

Definition create_collection (index_name : string)
    (distance_metric : VectorDistances) : Db St unit :=
  (let* present := Db.query (collections_exists index_name) in
   if negb present
   then collections_create index_name (standard_config distance_metric)
   else Db.ret tt)%db.

Definition check_document_exists (collection : string)
    (document_id fingerprint : string) (s : St) : Exc (bool * string) :=
  (let* existing_docs :=
     query_fetch_objects collection 1 (Some (document_id_is document_id)) s in
   match existing_docs with
   | first :: _ =>
       let* existing_fp := dict_getitem (PDict (properties first)) "fingerprint" in
       if eq_str existing_fp fingerprint
       then ret (true, "unchanged")
       else ret (true, "changed")
   | [] =>
       let* existing_content :=
         query_fetch_objects collection 1
           (Some (by_property_equal "fingerprint" (PStr fingerprint))) s in
       match existing_content with
       | _ :: _ => ret (true, "duplicate")
       | [] => ret (false, "new")
       end
   end)%exc.

Definition delete_document_from_index (collection : string)
    (document_id filename : string) : Db St Z :=
  (let* original_count :=
     Db.query (aggregate_over_all collection (Some (document_id_is document_id))) in
   let* result := data_delete_many collection (document_id_is document_id) in
   if negb (successful result =? original_count)%Z
   then Db.raise (RuntimeError ("Deleted " ++ pretty (successful result)
                                ++ " chunks but expected " ++ pretty original_count))
   else Db.ret (successful result))%db.

Definition check_document_in_index (collection : string) (document_id : string)
    (s : St) : Exc bool :=
  (let* existing :=
     query_fetch_objects collection 1 (Some (document_id_is document_id)) s in
   ret (match existing with [] => false | _ => true end))%exc.

(** [obj.vector["default"]] *)
Definition default_vector (obj : Object) : Exc (list Q) :=
  match vector obj !! "default" with
  | Some v => ret v
  | None => raise (KeyError "default")
  end.

Definition rename_collection (source_name target_name : string)
    (overwrite : bool) : Db St bool :=
  (let* source_present := Db.query (collections_exists source_name) in
   if negb source_present then Db.ret false
   else
     let* target_present := Db.query (collections_exists target_name) in
     if target_present && negb overwrite then Db.ret false
     else
       let* _ := (if target_present then collections_delete target_name
                  else Db.ret tt) in
       let source_col := source_name in
       let* _ := create_collection target_name COSINE in
       let target_col := target_name in
       let* objs := Db.query (iterator source_col true) in
       let* _ :=
         Db.for_each objs (λ obj,
           let* v := Db.query (λ _, default_vector obj) in
           batch_add_object target_col (properties obj) v) in
       let* _ := collections_delete source_name in
       Db.ret true)%db.

End client.

Section inspection.

Context {St : Type} `{!Client St} `{!Inspect St}.

Definition list_collections (s : St) : Exc (list string) :=
  collections_list_all s.

(** The loop of [list_documents_in_collection] over the objects left, with
    the set [seen] and the list [documents] built so far. *)
Fixpoint list_documents_loop (collection : string) (objs : list Object)
    (seen : list pyval) (documents : list (gmap string pyval)) (s : St)
  : Exc (list (gmap string pyval)) :=
  match objs with
  | [] => ret documents
  | obj :: rest =>
      (let* document_id := dict_getitem (PDict (properties obj)) "document_id" in
       let* known := set_contains seen document_id in
       if negb known then
         let seen := document_id :: seen in
         let* chunk_count :=
           aggregate_over_all collection
             (Some (by_property_equal "document_id" document_id)) s in
         let* filename := dict_getitem (PDict (properties obj)) "filename" in
         let* timestamp := dict_getitem (PDict (properties obj)) "timestamp" in
         list_documents_loop collection rest seen
           (documents ++
            [<["chunk_count" := PInt chunk_count]>
             (<["timestamp" := timestamp]>
             (<["filename" := filename]>
             (<["document_id" := document_id]> ∅)))]) s
       else list_documents_loop collection rest seen documents s)%exc
  end.

Definition list_documents_in_collection (collection : string) (s : St)
  : Exc (list (gmap string pyval)) :=
  (let* result :=
     query_fetch_objects_with collection 1000 None
       (Some ["document_id"; "filename"; "timestamp"; "fingerprint"]) false s in
   list_documents_loop collection result [] [] s)%exc.

Definition get_document_metadata (collection document_id : string) (s : St)
  : Exc (option (gmap string pyval)) :=
  (let* result :=
     query_fetch_objects_with collection 1 (Some (document_id_is document_id))
       (Some ["document_id"; "filename"; "timestamp"; "source_url"; "mime_type";
              "fingerprint"; "summary"]) false s in
   match result with
   | [] => ret None
   | first_chunk :: _ =>
       let props := properties first_chunk in
       let* filename := dict_getitem (PDict props) "filename" in
       let* timestamp := dict_getitem (PDict props) "timestamp" in
       let source_url := dict_get props "source_url" (PStr "") in
       let* mime_type := dict_getitem (PDict props) "mime_type" in
       let* fingerprint := dict_getitem (PDict props) "fingerprint" in
       let summary := dict_get props "summary" (PStr "") in
       let* total_chunks :=
         aggregate_over_all collection (Some (document_id_is document_id)) s in
       ret (Some (<["total_chunks" := PInt total_chunks]>
                  (<["summary" := summary]>
                  (<["fingerprint" := fingerprint]>
                  (<["mime_type" := mime_type]>
                  (<["source_url" := source_url]>
                  (<["timestamp" := timestamp]>
                  (<["filename" := filename]>
                  (<["document_id" := PStr document_id]> ∅)))))))))
   end)%exc.

End inspection.

(** [SemanticChunker] of the chonkie library, as far as [init_chunker] sets
    it up. *)
Record SemanticChunker : Type := mkSemanticChunker {
  threshold : Q;
  delim : list string
}.

Definition init_chunker (threshold : Q) (delimiters : string) : SemanticChunker :=
  mkSemanticChunker threshold (split_on comma delimiters).

Section search.

Context {C : Type} `{!Searchable C}.

(** The dict [search_params] as it stands when [near_vector] is called.
    [filters] is the optional dict of the caller. *)
Definition search_params (limit : Z) (filters : option (gmap string pyval))
  : SearchParams :=
  let base := mkSearchParams limit ["distance"]
                ["filename"; "content"; "source_url"; "timestamp"] None in
  match filters with
  | Some fs =>
      if negb (bool_decide (fs = ∅)) && (size fs =? 1)%nat then
        match map_to_list fs with
        | (key, value) :: _ =>
            mkSearchParams (weaviate.limit base) (return_metadata base)
              (return_properties base) (Some (by_property_equal key value))
        | [] => base
        end
      else base
  | None => base
  end.

(** One entry of the returned list. *)
Definition result_dict (obj : Hit) : gmap string pyval :=
  <["distance" := hit_distance obj]>
  (<["timestamp" := dict_get (hit_properties obj) "timestamp" (PStr "")]>
  (<["source_url" := dict_get (hit_properties obj) "source_url" (PStr "")]>
  (<["content" := dict_get (hit_properties obj) "content" (PStr "")]>
  (<["filename" := dict_get (hit_properties obj) "filename" (PStr "Unknown")]> ∅)))).

(** [embed_model.embed] maps a list of texts to the list of their vectors. *)
Definition search_collection (collection : C) (query : string)
    (embed_model : list string → list (list Q)) (limit : Z)
    (filters : option (gmap string pyval)) : Exc (list (gmap string pyval)) :=
  (let* query_vector :=
     match embed_model [query] with
     | v :: _ => ret v
     | [] => raise (IndexError "list index out of range")
     end in
   let* result := query_near_vector collection query_vector
                    (search_params limit filters) in
   ret (result_dict <$> result))%exc.

End search.

Section documents.

(** Functions of other modules and of the standard library: SHA-256 as a
    hexadecimal digest, [Path(p).name], [get_last_path_component] of
    [agentic.utils.file_reader] and [generate_fingerprint] of
    [agentic.utils.fingerprint]. *)
Variable sha256_hexdigest : string → string.
Variable Path_name : string → string.
Variable get_last_path_component : string → string.
Variable generate_fingerprint : string → string.

(** [s.encode()]: a string is held as its UTF-8 bytes. *)
Definition encode (s : string) : string := s.

Definition is_http_url (file_path : string) : bool :=
  startswith file_path "http://" || startswith file_path "https://".

(** [utcnow] is the formatted reading of the clock. *)
Definition prepare_document_metadata (utcnow : string)
    (file_path text mime_type model : string) : gmap string pyval :=
  let is_url := is_http_url file_path in
  let fingerprint := generate_fingerprint text in
  let filename :=
    if negb is_url then Path_name file_path else get_last_path_component file_path in
  let metadata : gmap string pyval :=
    <["fingerprint" := PStr fingerprint]>
    (<["source_url" := PStr (if is_url then file_path else "None")]>
    (<["mime_type" := PStr mime_type]>
    (<["timestamp" := PStr utcnow]>
    (<["filename" := PStr filename]> ∅)))) in
  match metadata !! "filename" with
  | Some (PStr name) => <["document_id" := PStr (sha256_hexdigest (encode name))]> metadata
  | _ => metadata
  end.

Definition get_document_id_from_path (file_path : string) : string * string :=
  let is_url := is_http_url file_path in
  let filename :=
    if negb is_url then Path_name file_path else get_last_path_component file_path in
  let document_id := sha256_hexdigest (encode filename) in
  (document_id, filename).

End documents.

End rag_helper.

(** ** What the specification calls a client-level rename

    The collection is removed under its old name and put, as it is, under
    the new one. *)

Module renaming.

Import weaviate.

Definition client_rename (source_name target_name : string) (s : Mem.State)
  : Mem.State :=
  match Mem.collections s !! source_name with
  | Some c =>
      Mem.set_collections s
        (<[target_name := c]> (base.delete source_name (Mem.collections s)))
  | None => s
  end.

(** The copy that [rename_collection] adds for an object: its properties
    and, of its vectors, the one named "default". *)
Definition default_only (o : Object) : Object :=
  mkObject (properties o)
    (match vector o !! "default" with
     | Some v => {["default" := v]}
     | None => ∅
     end).

End renaming.

(** ** The entry of a document in a listing

    What [list_documents_in_collection] puts into its result for a document
    whose first chunk is [o], in a collection that holds the objects [all]:
    the id, file name and time stamp of that chunk, and the number of
    objects of [all] under the id. *)

Module catalogue.

Import weaviate.

Definition document_entry (all : list Object) (o : Object) : gmap string pyval :=
  let document_id := default PNone (properties o !! "document_id") in
  <["chunk_count" :=
      PInt (Z.of_nat (length (Mem.matching
                                (Some (by_property_equal "document_id" document_id))
                                all)))]>
  (<["timestamp" := default PNone (properties o !! "timestamp")]>
  (<["filename" := default PNone (properties o !! "filename")]>
  (<["document_id" := document_id]> ∅))).

End catalogue.

(** ** Sample data *)

Module samples.

Import weaviate rag_helper.

Definition chunk (document_id fingerprint filename : string) (i : Z) : Object :=
  mkObject
    (<["document_id" := PStr document_id]>
     (<["fingerprint" := PStr fingerprint]>
      (<["filename" := PStr filename]> {["chunk_index" := PInt i]})))
    {["default" := [(1#2)%Q; (0#1)%Q]]}.

(** Three chunks of one document and one chunk of another. *)
Definition docs : Mem.Collection :=
  Mem.mkCollection (standard_config COSINE)
    [chunk "d1" "fpA" "a.txt" 0; chunk "d1" "fpA" "a.txt" 1;
     chunk "d1" "fpA" "a.txt" 2; chunk "d2" "fpB" "b.txt" 0].

Definition db (query_maximum_results : nat) : Mem.State :=
  Mem.mkState {["Docs" := docs]} query_maximum_results.

(** Two chunks filed under one document id with different fingerprints. *)
Definition mixed_db : Mem.State :=
  Mem.mkState
    {["Docs" := Mem.mkCollection (standard_config COSINE)
                  [chunk "d1" "fpA" "a.txt" 0; chunk "d1" "fpB" "a.txt" 1]]}
    100.

(** A collection made with the dot product as metric, whose object has a
    second vector, named "title". *)
Definition titled : Object :=
  mkObject {["document_id" := PStr "d1"]}
    (<["title" := [(1#1)%Q]]> {["default" := [(1#2)%Q; (0#1)%Q]]}).

Definition dot_db : Mem.State :=
  Mem.mkState {["Docs" := Mem.mkCollection (standard_config DOT) [titled]]} 100.

(** A collection whose object has named vectors only. *)
Definition named_only_db : Mem.State :=
  Mem.mkState
    {["Docs" := Mem.mkCollection (standard_config COSINE)
                  [mkObject {["document_id" := PStr "d1"]} {["title" := [(1#1)%Q]]}]]}
    100.

Definition hit (filename mime_type : string) (distance : Q) : Hit :=
  mkHit (<["filename" := PStr filename]>
         (<["mime_type" := PStr mime_type]> {["content" := PStr "text"]}))
        (PFloat distance).

Definition found : Canned.Collection :=
  Canned.mkCollection
    [hit "a.txt" "text/plain" (1#10)%Q; hit "b.txt" "text/plain" (2#10)%Q;
     hit "a.txt" "text/html" (3#10)%Q].

Definition embed_model (texts : list string) : list (list Q) :=
  (λ _, [(1#2)%Q; (0#1)%Q]) <$> texts.

End samples.

(** * Properties *)

Import events browser_use weaviate rag_helper renaming catalogue.

(** ** Events and results *)

Lemma eq_str_spec (v : pyval) (s : string) : eq_str v s = true ↔ v = PStr s.
Proof.
  destruct v; simpl; try (split; [discriminate | intros [=]]).
  rewrite String.eqb_eq. split; [intros -> | intros [=]]; done.
Qed.

(** C6. Each of the three result classes carries its own sentinel as value,
    which its [matches_sentinel] accepts; the sentinels are pairwise
    distinct, no value is accepted by two of the tests, and none of the
    tests accepts the value of another class. *)
Theorem sentinels_distinguish (request_keys values : gmap string pyval) (v : pyval) :
  PauseForInputResult.matches_sentinel (value (PauseForInputResult.init request_keys)) = true
  ∧ PauseForChildResult.matches_sentinel (value (PauseForChildResult.init values)) = true
  ∧ FinishAgentResult.matches_sentinel (value FinishAgentResult.init) = true
  ∧ PAUSE_FOR_INPUT_SENTINEL ≠ PAUSE_FOR_CHILD_SENTINEL
  ∧ PAUSE_FOR_INPUT_SENTINEL ≠ FINISH_AGENT_SENTINEL
  ∧ PAUSE_FOR_CHILD_SENTINEL ≠ FINISH_AGENT_SENTINEL
  ∧ PauseForInputResult.matches_sentinel v && PauseForChildResult.matches_sentinel v = false
  ∧ PauseForInputResult.matches_sentinel v && FinishAgentResult.matches_sentinel v = false
  ∧ PauseForChildResult.matches_sentinel v && FinishAgentResult.matches_sentinel v = false
  ∧ PauseForInputResult.matches_sentinel (value (PauseForChildResult.init values)) = false
  ∧ PauseForInputResult.matches_sentinel (value FinishAgentResult.init) = false
  ∧ PauseForChildResult.matches_sentinel (value (PauseForInputResult.init request_keys)) = false
  ∧ PauseForChildResult.matches_sentinel (value FinishAgentResult.init) = false
  ∧ FinishAgentResult.matches_sentinel (value (PauseForInputResult.init request_keys)) = false
  ∧ FinishAgentResult.matches_sentinel (value (PauseForChildResult.init values)) = false.
Proof.
  repeat split; try reflexivity; try discriminate.
  - destruct (PauseForInputResult.matches_sentinel v) eqn:Hin; [|done].
    apply eq_str_spec in Hin as ->. reflexivity.
  - destruct (PauseForInputResult.matches_sentinel v) eqn:Hin; [|done].
    apply eq_str_spec in Hin as ->. reflexivity.
  - destruct (PauseForChildResult.matches_sentinel v) eqn:Hch; [|done].
    apply eq_str_spec in Hch as ->. reflexivity.
Qed.

Lemma list_getitem_last (xs : list pyval) (x : pyval) :
  list_getitem (PList (xs ++ [x])) (-1) = inr x.
Proof.
  unfold list_getitem. rewrite length_app. simpl.
  replace (-1 <? 0)%Z with true by reflexivity.
  set (j := (-1 + Z.of_nat (length xs + 1))%Z).
  assert (Hj : j = Z.of_nat (length xs)) by (unfold j; lia).
  rewrite Hj.
  replace (Z.of_nat (length xs) <? 0)%Z with false by (symmetry; apply Z.ltb_ge; lia).
  replace (Z.of_nat (length xs + 1) <=? Z.of_nat (length xs))%Z
    with false by (symmetry; apply Z.leb_gt; lia).
  simpl. rewrite Nat2Z.id.
  rewrite lookup_app_r by lia. rewrite Nat.sub_diag. reflexivity.
Qed.

Lemma list_getitem_empty (i : Z) :
  list_getitem (PList []) i = inl (IndexError "list index out of range").
Proof.
  unfold list_getitem. simpl.
  destruct (i <? 0)%Z; destruct (_ || _); reflexivity.
Qed.

(** C9. A [TurnEnd] event hands back the messages and the context variables
    it was built from, and its [result] is the entry [content] of the last
    message (whatever indexing that message with [content] gives). *)
Theorem TurnEnd_carries_its_data (agent : string) (messages : list pyval)
    (context_variables : gmap string pyval) (last_message : pyval) :
  TurnEnd.messages (TurnEnd.init agent messages context_variables) = inr (PList messages)
  ∧ TurnEnd.context_variables (TurnEnd.init agent messages context_variables)
      = inr (PDict context_variables)
  ∧ TurnEnd.result (TurnEnd.init agent (messages ++ [last_message]) context_variables)
      = dict_getitem last_message "content".
Proof.
  split; [reflexivity|]. split; [reflexivity|].
  unfold TurnEnd.result.
  assert (TurnEnd.messages
            (TurnEnd.init agent (messages ++ [last_message]) context_variables)
          = inr (PList (messages ++ [last_message]))) as -> by reflexivity.
  unfold Py.bind at 1. rewrite list_getitem_last. reflexivity.
Qed.

(** With no message at all, [result] raises [IndexError]. *)
Lemma TurnEnd_result_no_message (agent : string) (vars : gmap string pyval) :
  TurnEnd.result (TurnEnd.init agent [] vars)
  = inl (IndexError "list index out of range").
Proof. reflexivity. Qed.

Example TurnEnd_result_example :
  TurnEnd.result
    (TurnEnd.init "a"
       [PDict {["role" := PStr "user"]};
        PDict (<["content" := PStr "done"]> {["role" := PStr "assistant"]})] ∅)
  = inr (PStr "done").
Proof. reflexivity. Qed.

(** ** The browser tool *)

Lemma py_or_int_zero (z : Z) : py_or (PInt z) (PInt 0) = PInt z.
Proof.
  unfold py_or. simpl. destruct (z =? 0)%Z eqn:Hz; [|done].
  apply Z.eqb_eq in Hz as ->. reflexivity.
Qed.

(** Called with the seven keywords it declares, [FinishCompletion.create]
    returns an event whose metadata holds the model, the given token counts
    and, for a cost and an elapsed time of 0, the integer 0. *)
Lemma FinishCompletion_create_metadata (agent message model : string) (tin tout : Z) :
  FinishCompletion.create
    [("agent", PStr agent); ("llm_message", PStr message); ("model", PStr model);
     ("cost", PInt 0); ("input_tokens", PInt tin); ("output_tokens", PInt tout);
     ("elapsed_time", PInt 0)]
  = inr (FinishCompletion.init (PStr agent) (PStr message)
           (<["elapsed_time" := PInt 0]>
           (<["output_tokens" := PInt tout]>
           (<["input_tokens" := PInt tin]>
           (<["cost" := PInt 0]>
           (<["model" := PStr model]> ∅)))))).
Proof.
  transitivity (@inr exn _ (FinishCompletion.create_body (PStr agent) (PStr message)
                  (PStr model) (PInt 0) (PInt tin) (PInt tout) (PInt 0)));
    [reflexivity|].
  unfold FinishCompletion.create_body. rewrite !py_or_int_zero. reflexivity.
Qed.

(** C4. Whenever the run of the external browser agent succeeds,
    [run_browser_agent] raises [TypeError]: it calls
    [FinishCompletion.create] with the keyword [depth], which [create] does
    not declare. No list is returned. *)
Theorem run_browser_agent_raises_TypeError
    (BrowserAgent_run : string → string → option Browser → Exc AgentHistoryList)
    (self : BrowserUseTool.t) (run_context : RunContext) (instructions : string)
    (model_arg : option string) (history : AgentHistoryList)
    (Hrun : ∀ browser,
       BrowserAgent_run instructions (BrowserUseTool.model self) browser = inr history) :
  BrowserUseTool.run_browser_agent BrowserAgent_run self run_context instructions model_arg
  = inl (TypeError
           "FinishCompletion.create() got an unexpected keyword argument 'depth'").
Proof.
  unfold BrowserUseTool.run_browser_agent. rewrite Hrun. reflexivity.
Qed.

Lemma run_browser_agent_raises_TypeError_witness :
  BrowserUseTool.run_browser_agent
    (λ _ _ _, inr (mkHistory
                     [mkLLMResult (Some {["token_usage" :=
                        <["completion_tokens" := 7%Z]> {["prompt_tokens" := 120%Z]}]})]
                     ["Example Domain"; "More information..."]))
    (BrowserUseTool.mk None "gpt-4o-mini") (mkRunContext "Browser Agent")
    "open example.com and read the heading" None
  = inl (TypeError
           "FinishCompletion.create() got an unexpected keyword argument 'depth'").
Proof.
  apply (run_browser_agent_raises_TypeError _ _ _ _ _
           (mkHistory
              [mkLLMResult (Some {["token_usage" :=
                 <["completion_tokens" := 7%Z]> {["prompt_tokens" := 120%Z]}]})]
              ["Example Domain"; "More information..."])).
  intros browser. reflexivity.
Defined.

(** The token counter sums the usage reported at the end of each LLM call. *)
Example token_counter_example :
  foldl TokenCounterStdOutCallback.on_llm_end TokenCounterStdOutCallback.init
    [mkLLMResult (Some {["token_usage" :=
        <["completion_tokens" := 7%Z]> {["prompt_tokens" := 120%Z]}]});
     mkLLMResult None;
     mkLLMResult (Some {["token_usage" := {["prompt_tokens" := 30%Z]}]})]
  = TokenCounterStdOutCallback.mk 150 7.
Proof. vm_compute. reflexivity. Qed.

(** ** Document identity *)

(** C10. The [document_id] that [prepare_document_metadata] stores is the
    first component of [get_document_id_from_path] on the same path: the
    SHA-256 hexadecimal digest of the file name taken from the path (by
    [get_last_path_component] for an http or https URL, by [Path(..).name]
    otherwise), whatever the text, the MIME type, the model and the clock. *)
Theorem document_id_depends_on_path_only
    (sha256_hexdigest Path_name get_last_path_component generate_fingerprint
       : string → string)
    (utcnow file_path text mime_type model : string) :
  prepare_document_metadata sha256_hexdigest Path_name get_last_path_component
      generate_fingerprint utcnow file_path text mime_type model !! "document_id"
  = Some (PStr (get_document_id_from_path sha256_hexdigest Path_name
                  get_last_path_component file_path).1)
  ∧ (get_document_id_from_path sha256_hexdigest Path_name
       get_last_path_component file_path).1
    = sha256_hexdigest
        (encode (if startswith file_path "http://" || startswith file_path "https://"
                 then get_last_path_component file_path
                 else Path_name file_path)).
Proof.
  split.
  - unfold prepare_document_metadata, get_document_id_from_path.
    destruct (is_http_url file_path); reflexivity.
  - unfold get_document_id_from_path, is_http_url. simpl.
    destruct (_ || _); reflexivity.
Qed.

(** ** The helper functions, for every client *)

Section any_client.

Context {St : Type} `{!Client St}.

Lemma Db_bind_returns {A B} (m : Db St A) (k : A → Db St B) (s s' : St) (b : B) :
  Db.bind m k s = (inr b, s') → ∃ a s1, m s = (inr a, s1) ∧ k a s1 = (inr b, s').
Proof.
  unfold Db.bind. destruct (m s) as [[e|a] s1]; [intros [=]|]. eauto.
Qed.

(** C8. [rename_collection] returns [False] exactly when the source
    collection does not exist, or it exists and so does the target while
    [overwrite] is false; and then the state of the client is the one it was
    called in. *)
Theorem rename_collection_False_unchanged (source_name target_name : string)
    (overwrite : bool) (s s' : St) :
  rename_collection source_name target_name overwrite s = (inr false, s')
  ↔ s' = s
    ∧ (collections_exists source_name s = inr false
       ∨ (collections_exists source_name s = inr true
          ∧ collections_exists target_name s = inr true ∧ overwrite = false)).
Proof.
  assert (Htail : ∀ (present : bool) (s0 : St),
    ¬ (let* _ := (if present then collections_delete target_name else Db.ret tt) in
       let* _ := create_collection target_name COSINE in
       let* objs := Db.query (iterator source_name true) in
       let* _ :=
         Db.for_each objs (λ obj,
           let* v := Db.query (λ _, default_vector obj) in
           batch_add_object target_name (properties obj) v) in
       let* _ := collections_delete source_name in
       Db.ret true)%db s0 = (inr false, s')).
  { intros present s0 Hrun.
    repeat (apply Db_bind_returns in Hrun as (? & ? & _ & Hrun)).
    discriminate Hrun. }
  unfold rename_collection.
  unfold Db.bind at 1, Db.query at 1.
  destruct (collections_exists source_name s) as [e|[|]] eqn:Hsrc; simpl.
  - split; [intros [=]|]. intros [_ [[=]|[[=] _]]].
  - unfold Db.bind at 1, Db.query at 1.
    destruct (collections_exists target_name s) as [e|[|]] eqn:Htgt; simpl.
    + split; [intros [=]|]. intros [_ [[=]|(_ & [=] & _)]].
    + destruct overwrite; simpl.
      * split; [|intros [_ [[=]|(_ & _ & [=])]]].
        intros Hrun. destruct (Htail true s Hrun).
      * unfold Db.ret. split; [intros [= ->]; eauto|]. by intros [-> _].
    + split; [|intros [_ [[=]|(_ & [=] & _)]]].
      intros Hrun. destruct (Htail false s Hrun).
  - unfold Db.ret. split; [intros [= ->]; eauto|]. by intros [-> _].
Qed.

(** C7. Where the collection exists, [create_collection] returns without
    changing the state of the client; and, for a client whose successful
    [create] makes the collection exist, two calls in a row do what one
    call does. *)
Theorem create_collection_idempotent (index_name : string)
    (distance_metric : VectorDistances)
    (Hcreated : ∀ cfg s s',
       collections_create index_name cfg s = (inr tt, s') →
       collections_exists index_name s' = inr true)
    (s : St) :
  (collections_exists index_name s = inr true →
   create_collection index_name distance_metric s = (inr tt, s))
  ∧ (let* _ := create_collection index_name distance_metric in
     create_collection index_name distance_metric)%db s
    = create_collection index_name distance_metric s.
Proof.
  split.
  - intros Hex. unfold create_collection, Db.bind, Db.query. by rewrite Hex.
  - unfold Db.bind at 1.
    destruct (create_collection index_name distance_metric s) as [[e|[]] s1] eqn:Hrun;
      [done|].
    assert (collections_exists index_name s1 = inr true) as Hex.
    { revert Hrun. unfold create_collection, Db.bind, Db.query.
      destruct (collections_exists index_name s) as [e|[|]] eqn:Hp; simpl.
      - intros [=].
      - intros [= <-]. done.
      - apply Hcreated. }
    unfold create_collection, Db.bind, Db.query. by rewrite Hex.
Qed.

(** C1. Once the client has counted the chunks of the document and carried
    out the deletion, [delete_document_from_index] compares the two numbers:
    it returns the number of deleted chunks if they agree, and raises
    [RuntimeError] itself if they differ; the state is the one the
    deletion left in both cases. *)
Theorem delete_document_from_index_checks_count
    (collection document_id filename : string)
    (s s' : St) (original_count : Z) (result : DeleteManyReturn)
    (Hcount : aggregate_over_all collection (Some (document_id_is document_id)) s
              = inr original_count)
    (Hdelete : data_delete_many collection (document_id_is document_id) s
               = (inr result, s')) :
  delete_document_from_index collection document_id filename s
  = (if (successful result =? original_count)%Z
     then inr (successful result)
     else inl (RuntimeError ("Deleted " ++ pretty (successful result)
                             ++ " chunks but expected " ++ pretty original_count)),
     s').
Proof.
  unfold delete_document_from_index, Db.bind, Db.query.
  rewrite Hcount, Hdelete. by destruct (_ =? _)%Z.
Qed.

(** An exception of the client, in the count or in the deletion, is passed
    on as it is. *)
Lemma delete_document_from_index_count_raises
    (collection document_id filename : string) (s : St) (e : exn) :
  aggregate_over_all collection (Some (document_id_is document_id)) s = inl e →
  delete_document_from_index collection document_id filename s = (inl e, s).
Proof.
  intros Hcount. unfold delete_document_from_index, Db.bind, Db.query.
  by rewrite Hcount.
Qed.

Lemma delete_document_from_index_delete_raises
    (collection document_id filename : string) (s s' : St) (n : Z) (e : exn) :
  aggregate_over_all collection (Some (document_id_is document_id)) s = inr n →
  data_delete_many collection (document_id_is document_id) s = (inl e, s') →
  delete_document_from_index collection document_id filename s = (inl e, s').
Proof.
  intros Hcount Hdelete. unfold delete_document_from_index, Db.bind, Db.query.
  by rewrite Hcount, Hdelete.
Qed.

End any_client.

(** ** The helper functions on the reference client *)

Lemma Mem_create_exists (name : string) (cfg : CollectionConfig) (s s' : Mem.State) :
  collections_create name cfg s = (inr tt, s') →
  collections_exists name s' = inr true.
Proof.
  simpl. unfold Mem.create, Mem.exists_.
  destruct (Mem.collections s !! name) eqn:Hlook; [intros [=]|].
  intros [= <-]. simpl. rewrite lookup_insert_eq.
  rewrite bool_decide_eq_true_2; eauto.
Qed.

Lemma create_collection_idempotent_witness :
  (collections_exists "Docs" (samples.db 100) = inr true →
   create_collection "Docs" COSINE (samples.db 100) = (inr tt, samples.db 100))
  ∧ (let* _ := create_collection "Docs" COSINE in
     create_collection "Docs" COSINE)%db (samples.db 100)
    = create_collection "Docs" COSINE (samples.db 100).
Proof.
  apply (create_collection_idempotent (St := Mem.State) "Docs" COSINE).
  intros cfg s s'. apply Mem_create_exists.
Defined.

(** Creation in an empty database, once and twice. *)
Example create_collection_twice :
  (let* _ := create_collection "Docs" DOT in create_collection "Docs" DOT)%db
    (Mem.mkState ∅ 100)
  = (inr tt, Mem.mkState {["Docs" := Mem.mkCollection (standard_config DOT) []]} 100).
Proof. vm_compute. reflexivity. Qed.

Lemma rename_collection_False_unchanged_witness :
  rename_collection "Docs" "Docs" false (samples.db 100) = (inr false, samples.db 100)
  ↔ samples.db 100 = samples.db 100
    ∧ (collections_exists "Docs" (samples.db 100) = inr false
       ∨ (collections_exists "Docs" (samples.db 100) = inr true
          ∧ collections_exists "Docs" (samples.db 100) = inr true ∧ false = false)).
Proof.
  apply (rename_collection_False_unchanged (St := Mem.State)).
Defined.

Example rename_collection_missing_source :
  rename_collection "Nope" "Docs2" true (samples.db 100) = (inr false, samples.db 100).
Proof. vm_compute. reflexivity. Qed.

Example rename_collection_target_taken :
  rename_collection "Docs" "Docs" false (samples.db 100) = (inr false, samples.db 100).
Proof. vm_compute. reflexivity. Qed.

(** C1, refuted as stated: the server removes at most two objects per
    request, the document has three chunks; the client reports two
    deletions and raises nothing, and [delete_document_from_index] raises
    [RuntimeError]. *)
Lemma delete_document_from_index_raises_of_its_own :
  (∃ s', data_delete_many "Docs" (document_id_is "d1") (samples.db 2)
         = (inr (mkDeleteManyReturn 0 2 2), s'))
  ∧ (delete_document_from_index "Docs" "d1" "a.txt" (samples.db 2)).1
    = inl (RuntimeError "Deleted 2 chunks but expected 3")
  ∧ ¬ (∀ (s s' : Mem.State) (collection document_id filename : string)
         (result : DeleteManyReturn),
         data_delete_many collection (document_id_is document_id) s = (inr result, s') →
         delete_document_from_index collection document_id filename s
         = (inr (successful result), s')).
Proof.
  split; [eexists; vm_compute; reflexivity|].
  split; [vm_compute; reflexivity|].
  intros Hclaim.
  specialize (Hclaim (samples.db 2) _ "Docs" "d1" "a.txt" _ eq_refl).
  vm_compute in Hclaim. discriminate Hclaim.
Qed.

Lemma delete_document_from_index_checks_count_witness :
  delete_document_from_index "Docs" "d1" "a.txt" (samples.db 100)
  = (inr 3,
     Mem.mkState
       {["Docs" := Mem.mkCollection (standard_config COSINE)
                     [samples.chunk "d2" "fpB" "b.txt" 0]]} 100).
Proof.
  apply (delete_document_from_index_checks_count (St := Mem.State)
           "Docs" "d1" "a.txt" (samples.db 100) _ 3 (mkDeleteManyReturn 0 3 3)).
  - vm_compute. reflexivity.
  - vm_compute. reflexivity.
Defined.

Lemma Mem_state_eta (s : Mem.State) :
  Mem.set_collections s (Mem.collections s) = s.
Proof. by destruct s. Qed.

(** Adding the copies one by one appends them to the target collection. *)
Lemma Mem_copy_loop (target_name : string) (objs : list Object)
    (cfg : CollectionConfig) (acc : list Object) (s : Mem.State) :
  Mem.collections s !! target_name = Some (Mem.mkCollection cfg acc) →
  Forall (λ o, is_Some (vector o !! "default")) objs →
  Db.for_each objs (λ obj,
    let* v := Db.query (λ _, default_vector obj) in
    batch_add_object target_name (properties obj) v)%db s
  = (inr tt,
     Mem.set_collections s
       (<[target_name := Mem.mkCollection cfg (acc ++ (default_only <$> objs))]>
          (Mem.collections s))).
Proof.
  revert acc s. induction objs as [|o objs IH]; intros acc s Hlook Hall.
  - simpl. unfold Db.ret. rewrite app_nil_r.
    rewrite insert_id by done. by rewrite Mem_state_eta.
  - apply Forall_cons in Hall as [[v Hv] Hall].
    cbn [Db.for_each]. unfold Db.bind at 1.
    unfold Db.bind at 1, Db.query at 1, default_vector. rewrite Hv. simpl.
    unfold Mem.add_object at 1. rewrite Hlook. cbn [Mem.config Mem.objects].
    rewrite (IH (acc ++ [mkObject (properties o) {["default" := v]}])%list);
      [|by (simpl; rewrite lookup_insert_eq)|done].
    f_equal. destruct s as [m cap]. unfold Mem.set_collections. simpl.
    rewrite insert_insert_eq. do 3 f_equal.
    rewrite <- app_assoc. simpl. do 2 f_equal.
    unfold default_only. by rewrite Hv.
Qed.

Lemma Mem_exists (name : string) (s : Mem.State) :
  collections_exists name s = inr (bool_decide (is_Some (Mem.collections s !! name))).
Proof. reflexivity. Qed.

Lemma Mem_exists_Some (name : string) (s : Mem.State) (c : Mem.Collection) :
  Mem.collections s !! name = Some c → collections_exists name s = inr true.
Proof. intros Hc. rewrite Mem_exists, Hc. by rewrite bool_decide_eq_true_2. Qed.

Lemma Mem_exists_None (name : string) (s : Mem.State) :
  Mem.collections s !! name = None → collections_exists name s = inr false.
Proof.
  intros Hc. rewrite Mem_exists, Hc. rewrite bool_decide_eq_false_2; [done|].
  by intros [? ?].
Qed.

Lemma Mem_create_fresh (name : string) (cfg : CollectionConfig) (s : Mem.State) :
  Mem.collections s !! name = None →
  collections_create name cfg s
  = (inr tt, Mem.set_collections s (<[name := Mem.mkCollection cfg []]> (Mem.collections s))).
Proof. intros Hc. simpl. unfold Mem.create. by rewrite Hc. Qed.

Lemma Mem_delete (name : string) (s : Mem.State) :
  collections_delete name s
  = (inr tt, Mem.set_collections s (base.delete name (Mem.collections s))).
Proof. reflexivity. Qed.

Lemma Mem_iterate (name : string) (s : Mem.State) (c : Mem.Collection) :
  Mem.collections s !! name = Some c → iterator name true s = inr (Mem.objects c).
Proof. intros Hc. simpl. unfold Mem.iterate. by rewrite Hc. Qed.

Ltac db_step := unfold Db.bind at 1, Db.query at 1; cbv beta.

(** The run of [rename_collection] past its two guards. *)
Lemma rename_collection_run (s : Mem.State) (source_name target_name : string)
    (overwrite : bool) (c : Mem.Collection)
    (Hdistinct : source_name ≠ target_name)
    (Hsource : Mem.collections s !! source_name = Some c)
    (Htarget : Mem.collections s !! target_name = None ∨ overwrite = true)
    (Hvectors : Forall (λ o, is_Some (vector o !! "default")) (Mem.objects c)) :
  rename_collection source_name target_name overwrite s
  = (inr true,
     Mem.set_collections s
       (<[target_name := Mem.mkCollection (standard_config COSINE)
                           (default_only <$> Mem.objects c)]>
          (base.delete source_name (Mem.collections s)))).
Proof.
  assert (Hcopy : ∀ s1 : Mem.State,
    Mem.collections s1 !! target_name = None →
    Mem.collections s1 !! source_name = Some c →
    (let* _ := create_collection target_name COSINE in
     let* objs := Db.query (iterator source_name true) in
     let* _ :=
       Db.for_each objs (λ obj,
         let* v := Db.query (λ _, default_vector obj) in
         batch_add_object target_name (properties obj) v) in
     let* _ := collections_delete source_name in
     Db.ret true)%db s1
    = (inr true,
       Mem.set_collections s1
         (<[target_name := Mem.mkCollection (standard_config COSINE)
                             (default_only <$> Mem.objects c)]>
            (base.delete source_name (Mem.collections s1))))).
  { intros s1 Hnone Hsome.
    unfold Db.bind at 1. unfold create_collection. db_step.
    rewrite Mem_exists_None by done. cbn [negb].
    rewrite Mem_create_fresh by done.
    db_step. rewrite (Mem_iterate _ _ c) by (by simpl; rewrite lookup_insert_ne).
    unfold Db.bind at 1.
    rewrite (Mem_copy_loop target_name (Mem.objects c) (standard_config COSINE) []);
      [|by (simpl; rewrite lookup_insert_eq)|done].
    unfold Db.bind at 1. rewrite Mem_delete. unfold Db.ret.
    destruct s1 as [m1 cap]. unfold Mem.set_collections. simpl.
    rewrite insert_insert_eq. by rewrite delete_insert_ne. }
  unfold rename_collection. db_step.
  rewrite (Mem_exists_Some _ _ c) by done. cbn [negb]. db_step.
  destruct (Mem.collections s !! target_name) as [old|] eqn:Hold.
  - destruct Htarget as [[=]| ->].
    rewrite (Mem_exists_Some _ _ old) by done. cbn [negb andb].
    unfold Db.bind at 1. rewrite Mem_delete.
    rewrite Hcopy.
    + destruct s as [m cap]. unfold Mem.set_collections. simpl.
      do 2 f_equal. rewrite (delete_delete m source_name target_name).
      by rewrite insert_delete_eq.
    + simpl. apply lookup_delete_eq.
    + simpl. by rewrite lookup_delete_ne.
  - rewrite Mem_exists_None by done. cbn [negb andb].
    unfold Db.bind at 1, Db.ret at 1. by rewrite Hcopy.
Qed.

(** C2. On the reference client: when the source collection exists, the
    target is another name that is free or may be overwritten, and every
    object of the source has a vector named "default", [rename_collection]
    returns [True] and leaves the source deleted and the target a collection
    newly created with the standard schema and the cosine metric, holding
    one object per object of the source, in the same order, with the
    properties of that object and its "default" vector. *)
Theorem rename_collection_copies (s : Mem.State) (source_name target_name : string)
    (overwrite : bool) (c : Mem.Collection)
    (Hdistinct : source_name ≠ target_name)
    (Hsource : Mem.collections s !! source_name = Some c)
    (Htarget : Mem.collections s !! target_name = None ∨ overwrite = true)
    (Hvectors : Forall (λ o, is_Some (vector o !! "default")) (Mem.objects c)) :
  rename_collection source_name target_name overwrite s
  = (inr true,
     Mem.set_collections s
       (<[target_name := Mem.mkCollection (standard_config COSINE)
                           (default_only <$> Mem.objects c)]>
          (base.delete source_name (Mem.collections s)))).
Proof. by apply rename_collection_run. Qed.

Lemma rename_collection_copies_witness :
  rename_collection "Docs" "Archive" false (samples.db 100)
  = (inr true,
     Mem.set_collections (samples.db 100)
       (<["Archive" := Mem.mkCollection (standard_config COSINE)
                         (default_only <$> Mem.objects samples.docs)]>
          (base.delete "Docs" (Mem.collections (samples.db 100))))).
Proof.
  apply (rename_collection_copies (samples.db 100) "Docs" "Archive" false samples.docs).
  - discriminate.
  - reflexivity.
  - left. reflexivity.
  - repeat constructor; eexists; reflexivity.
Defined.

Lemma default_only_id (objs : list Object) :
  Forall (λ o, ∃ v, vector o = {["default" := v]}) objs →
  default_only <$> objs = objs.
Proof.
  induction 1 as [|o objs [v Hv] _ IH]; [done|].
  rewrite fmap_cons, IH. f_equal.
  destruct o as [props vs]. simpl in Hv. subst vs. unfold default_only. simpl.
  by rewrite lookup_singleton_eq.
Qed.

(** Where the source collection has the standard schema with the cosine
    metric and each of its objects has the vector "default" and no other,
    the state reached is that of a client-level rename. *)
Corollary rename_collection_is_client_rename (s : Mem.State)
    (source_name target_name : string) (overwrite : bool) (c : Mem.Collection) :
  source_name ≠ target_name →
  Mem.collections s !! source_name = Some c →
  Mem.collections s !! target_name = None ∨ overwrite = true →
  Mem.config c = standard_config COSINE →
  Forall (λ o, ∃ v, vector o = {["default" := v]}) (Mem.objects c) →
  rename_collection source_name target_name overwrite s
  = (inr true, client_rename source_name target_name s).
Proof.
  intros Hne Hsrc Htgt Hcfg Hvec.
  rewrite (rename_collection_run s source_name target_name overwrite c); try done.
  - unfold client_rename. rewrite Hsrc. do 3 f_equal.
    rewrite default_only_id by done.
    destruct c as [cfg objs]. simpl in *. by subst cfg.
  - eapply Forall_impl; [exact Hvec|]. intros o [v ->].
    rewrite lookup_singleton_eq. eauto.
Qed.

(** C2, refuted as stated: the source was made with the dot product as
    metric and its object has a second vector; the call returns [True], the
    target has the cosine metric and the copy has lost the second vector, so
    the state is not that of a client-level rename. *)
Lemma rename_collection_is_no_client_rename :
  ∃ s', rename_collection "Docs" "Archive" false samples.dot_db = (inr true, s')
    ∧ Mem.objects <$> Mem.collections s' !! "Archive"
      ≠ Mem.objects <$> Mem.collections samples.dot_db !! "Docs"
    ∧ Mem.config <$> Mem.collections s' !! "Archive"
      ≠ Mem.config <$> Mem.collections samples.dot_db !! "Docs"
    ∧ s' ≠ client_rename "Docs" "Archive" samples.dot_db.
Proof.
  eexists. split; [vm_compute; reflexivity|].
  split; [|split].
  - vm_compute. discriminate.
  - vm_compute. discriminate.
  - vm_compute. discriminate.
Qed.

(** Renaming a collection to itself with [overwrite] destroys it. *)
Example rename_collection_onto_itself :
  rename_collection "Docs" "Docs" true (samples.db 100) = (inr true, Mem.mkState ∅ 100).
Proof. vm_compute. reflexivity. Qed.

(** An object without a vector named "default" stops the copy with
    [KeyError]; the source collection is still there. *)
Example rename_collection_named_vectors :
  ∃ s', rename_collection "Docs" "Archive" false samples.named_only_db
        = (inl (KeyError "default"), s')
        ∧ is_Some (Mem.collections s' !! "Docs").
Proof. eexists. split; [vm_compute; reflexivity|]. vm_compute. eauto. Qed.

(** ** Looking a document up *)

Lemma satisfies_equal_str (p v : string) (props : gmap string pyval) :
  satisfies (Some (by_property_equal p (PStr v))) props = true
  ↔ props !! p = Some (PStr v).
Proof.
  simpl. destruct (props !! p) as [w|]; [|split; discriminate].
  destruct w; simpl; try (split; [discriminate|intros [=]]).
  rewrite String.eqb_eq. split; [by intros ->|by intros [=]].
Qed.

Lemma satisfies_equal_str_false (p v : string) (props : gmap string pyval) :
  satisfies (Some (by_property_equal p (PStr v))) props = false
  ↔ props !! p ≠ Some (PStr v).
Proof.
  rewrite <- satisfies_equal_str. by destruct (satisfies _ _).
Qed.

Lemma matching_none (p v : string) (os : list Object) :
  Forall (λ o, properties o !! p ≠ Some (PStr v)) os →
  Mem.matching (Some (by_property_equal p (PStr v))) os = [].
Proof.
  induction 1 as [|o os Ho _ IH]; [done|].
  unfold Mem.matching in *. cbn [List.filter].
  apply satisfies_equal_str_false in Ho. by rewrite Ho.
Qed.

Lemma matching_first (p v : string) (before after : list Object) (first : Object) :
  Forall (λ o, properties o !! p ≠ Some (PStr v)) before →
  properties first !! p = Some (PStr v) →
  Mem.matching (Some (by_property_equal p (PStr v))) (before ++ first :: after)%list
  = first :: Mem.matching (Some (by_property_equal p (PStr v))) after.
Proof.
  intros Hbefore Hfirst. unfold Mem.matching. rewrite List.filter_app.
  fold (Mem.matching (Some (by_property_equal p (PStr v))) before).
  rewrite matching_none by done. cbn [List.filter app].
  apply satisfies_equal_str in Hfirst. by rewrite Hfirst.
Qed.

Lemma matching_some (p v : string) (os : list Object) :
  Exists (λ o, properties o !! p = Some (PStr v)) os →
  Mem.matching (Some (by_property_equal p (PStr v))) os ≠ [].
Proof.
  induction 1 as [o os Ho|o os _ IH]; unfold Mem.matching in *; cbn [List.filter].
  - apply satisfies_equal_str in Ho. by rewrite Ho.
  - by destruct (satisfies _ _).
Qed.

Lemma Mem_fetch_one (collection : string) (f : Filter) (s : Mem.State)
    (c : Mem.Collection) :
  Mem.collections s !! collection = Some c →
  query_fetch_objects collection 1 (Some f) s
  = inr (Mem.without_vector <$> take 1 (Mem.matching (Some f) (Mem.objects c))).
Proof. intros Hc. simpl. unfold Mem.fetch_objects. by rewrite Hc. Qed.

(** Whatever the client, the flag returned is [True] unless the status is
    "new". *)
Lemma check_document_exists_flag {St : Type} `{!Client St}
    (collection document_id fingerprint : string) (s : St) (flag : bool)
    (status : string) :
  check_document_exists collection document_id fingerprint s = inr (flag, status) →
  (flag = true ↔ status ≠ "new").
Proof.
  unfold check_document_exists, Py.bind.
  destruct (query_fetch_objects collection 1 (Some (document_id_is document_id)) s)
    as [e|[|first rest]]; [intros [=]| |].
  - destruct (query_fetch_objects collection 1
                (Some (by_property_equal "fingerprint" (PStr fingerprint))) s)
      as [e|[|? ?]]; [intros [=]| |]; intros [= <- <-]; split; done.
  - destruct (dict_getitem _ _) as [e|fp]; [intros [=]|].
    destruct (eq_str fp fingerprint); intros [= <- <-]; split; done.
Qed.

(** C5. On the reference client, for a collection that exists:
    [check_document_exists] judges the first object the client lists under
    the document id, returning [(True, "unchanged")] if the fingerprint
    stored with it is the given one and [(True, "changed")] if it is
    another value; with no object under the document id it returns
    [(True, "duplicate")] if some object has the fingerprint and
    [(False, "new")] if none has; and the flag is [True] exactly when the
    status is not "new". *)
Theorem check_document_exists_cases (s : Mem.State) (collection : string)
    (c : Mem.Collection) (document_id fingerprint : string)
    (Hc : Mem.collections s !! collection = Some c) :
  (∀ (before : list Object) (first : Object) (after : list Object) (stored : pyval),
     Mem.objects c = (before ++ first :: after)%list →
     Forall (λ o, properties o !! "document_id" ≠ Some (PStr document_id)) before →
     properties first !! "document_id" = Some (PStr document_id) →
     properties first !! "fingerprint" = Some stored →
     (stored = PStr fingerprint →
      check_document_exists collection document_id fingerprint s
      = inr (true, "unchanged"))
     ∧ (stored ≠ PStr fingerprint →
        check_document_exists collection document_id fingerprint s
        = inr (true, "changed")))
  ∧ (Forall (λ o, properties o !! "document_id" ≠ Some (PStr document_id))
       (Mem.objects c) →
     (Exists (λ o, properties o !! "fingerprint" = Some (PStr fingerprint))
        (Mem.objects c) →
      check_document_exists collection document_id fingerprint s
      = inr (true, "duplicate"))
     ∧ (Forall (λ o, properties o !! "fingerprint" ≠ Some (PStr fingerprint))
          (Mem.objects c) →
        check_document_exists collection document_id fingerprint s
        = inr (false, "new")))
  ∧ (∀ flag status,
       check_document_exists collection document_id fingerprint s
       = inr (flag, status) →
       (flag = true ↔ status ≠ "new")).
Proof.
  split; [|split].
  - intros before first after stored Hobjs Hbefore Hfirst Hstored.
    assert (Hrun : check_document_exists collection document_id fingerprint s
                   = inr (true, if eq_str stored fingerprint
                                then "unchanged" else "changed")).
    { unfold check_document_exists.
      rewrite (Mem_fetch_one _ _ _ c) by done.
      unfold document_id_is. rewrite Hobjs, matching_first by done.
      cbn [take fmap list_fmap Py.bind Mem.without_vector properties dict_getitem].
      rewrite Hstored. cbn [Py.bind Py.ret].
      by destruct (eq_str stored fingerprint). }
    split; intros Hcmp; rewrite Hrun.
    + apply eq_str_spec in Hcmp. by rewrite Hcmp.
    + destruct (eq_str stored fingerprint) eqn:Heq; [|done].
      by apply eq_str_spec in Heq.
  - intros Hnodoc.
    assert (Hrun : check_document_exists collection document_id fingerprint s
                   = match Mem.matching
                             (Some (by_property_equal "fingerprint" (PStr fingerprint)))
                             (Mem.objects c) with
                     | [] => inr (false, "new")
                     | _ :: _ => inr (true, "duplicate")
                     end).
    { unfold check_document_exists.
      rewrite !(Mem_fetch_one _ _ _ c) by done.
      unfold document_id_is. rewrite matching_none by done.
      cbn [take fmap list_fmap Py.bind].
      by destruct (Mem.matching _ _). }
    split; intros Hfp; rewrite Hrun.
    + apply matching_some in Hfp. by destruct (Mem.matching _ _).
    + by rewrite matching_none.
  - intros flag status. apply check_document_exists_flag.
Qed.

Lemma check_document_exists_cases_witness :
  check_document_exists "Docs" "d2" "fpB" (samples.db 100) = inr (true, "unchanged")
  ∧ check_document_exists "Docs" "d2" "fpX" (samples.db 100) = inr (true, "changed")
  ∧ check_document_exists "Docs" "d9" "fpA" (samples.db 100) = inr (true, "duplicate")
  ∧ check_document_exists "Docs" "d9" "fpX" (samples.db 100) = inr (false, "new").
Proof.
  pose proof (check_document_exists_cases (samples.db 100) "Docs" samples.docs
                "d2" "fpB" eq_refl) as (Hfirst & _ & _).
  pose proof (check_document_exists_cases (samples.db 100) "Docs" samples.docs
                "d2" "fpX" eq_refl) as (Hfirst' & _ & _).
  pose proof (check_document_exists_cases (samples.db 100) "Docs" samples.docs
                "d9" "fpA" eq_refl) as (_ & Hnone & _).
  pose proof (check_document_exists_cases (samples.db 100) "Docs" samples.docs
                "d9" "fpX" eq_refl) as (_ & Hnone' & _).
  split; [|split; [|split]].
  - apply (Hfirst [samples.chunk "d1" "fpA" "a.txt" 0; samples.chunk "d1" "fpA" "a.txt" 1;
                   samples.chunk "d1" "fpA" "a.txt" 2]
             (samples.chunk "d2" "fpB" "b.txt" 0) [] (PStr "fpB"));
      try reflexivity.
    repeat constructor; vm_compute; discriminate.
  - apply (Hfirst' [samples.chunk "d1" "fpA" "a.txt" 0; samples.chunk "d1" "fpA" "a.txt" 1;
                    samples.chunk "d1" "fpA" "a.txt" 2]
             (samples.chunk "d2" "fpB" "b.txt" 0) [] (PStr "fpB"));
      try reflexivity; [|discriminate].
    repeat constructor; vm_compute; discriminate.
  - apply Hnone.
    + repeat constructor; vm_compute; discriminate.
    + apply Exists_cons_hd. reflexivity.
  - apply Hnone'; repeat constructor; vm_compute; discriminate.
Defined.

(** C5, refuted as stated: two chunks are filed under the document id, the
    second with the fingerprint asked for; the status is "changed". *)
Lemma check_document_exists_judges_first_chunk :
  (∃ c o, Mem.collections samples.mixed_db !! "Docs" = Some c
          ∧ o ∈ Mem.objects c
          ∧ properties o !! "document_id" = Some (PStr "d1")
          ∧ properties o !! "fingerprint" = Some (PStr "fpB"))
  ∧ check_document_exists "Docs" "d1" "fpB" samples.mixed_db = inr (true, "changed").
Proof.
  split; [|vm_compute; reflexivity].
  eexists _, (samples.chunk "d1" "fpB" "a.txt" 1).
  split; [reflexivity|]. split; [|split; reflexivity].
  apply list_elem_of_further, list_elem_of_here.
Qed.

(** ** Searching a collection *)

Lemma search_params_one_filter (limit : Z) (key : string) (value : pyval) :
  search_params limit (Some {[key := value]})
  = mkSearchParams limit ["distance"]
      ["filename"; "content"; "source_url"; "timestamp"]
      (Some (by_property_equal key value)).
Proof.
  unfold search_params.
  rewrite bool_decide_eq_false_2 by apply map_non_empty_singleton.
  rewrite map_size_singleton, map_to_list_singleton. reflexivity.
Qed.

(** Without a dict of filters, with an empty one or with one of two entries
    or more, the request carries no filter. *)
Lemma search_params_no_filter (limit : Z) (fs : option (gmap string pyval)) :
  (∀ m, fs = Some m → size m ≠ 1%nat) →
  search_params limit fs
  = mkSearchParams limit ["distance"]
      ["filename"; "content"; "source_url"; "timestamp"] None.
Proof.
  intros Hsize. unfold search_params. destruct fs as [m|]; [|done].
  specialize (Hsize m eq_refl).
  destruct (size m =? 1)%nat eqn:Hone; [|by rewrite andb_false_r].
  by apply Nat.eqb_eq in Hone.
Qed.

Lemma result_dict_entries (obj : Hit) :
  result_dict obj !! "filename"
    = Some (default (PStr "Unknown") (hit_properties obj !! "filename"))
  ∧ result_dict obj !! "content"
    = Some (default (PStr "") (hit_properties obj !! "content"))
  ∧ result_dict obj !! "source_url"
    = Some (default (PStr "") (hit_properties obj !! "source_url"))
  ∧ result_dict obj !! "timestamp"
    = Some (default (PStr "") (hit_properties obj !! "timestamp"))
  ∧ result_dict obj !! "distance" = Some (hit_distance obj)
  ∧ dom (result_dict obj)
    = ({["filename"; "content"; "source_url"; "timestamp"; "distance"]} : gset string).
Proof.
  unfold result_dict, dict_get. repeat split; reflexivity.
Qed.

Section any_collection.

Context {C : Type} `{!Searchable C}.

(** C3. For a dict of filters with one entry, [search_collection] asks the
    client for the neighbours of the embedded query with the limit given,
    the distance as metadata, the four properties and the equality filter
    of that entry, and returns one dict per object found, in the order of
    the client: the four properties, each with its default where the object
    lacks it, and the distance. *)
Theorem search_collection_forwards (collection : C) (query : string)
    (embed_model : list string → list (list Q)) (limit : Z)
    (key : string) (value : pyval)
    (query_vector : list Q) (others : list (list Q)) (found : list Hit)
    (Hembed : embed_model [query] = query_vector :: others)
    (Hfound : query_near_vector collection query_vector
                (mkSearchParams limit ["distance"]
                   ["filename"; "content"; "source_url"; "timestamp"]
                   (Some (by_property_equal key value)))
              = inr found) :
  ∃ out,
    search_collection collection query embed_model limit (Some {[key := value]})
    = inr out
    ∧ length out = length found
    ∧ ∀ (i : nat) (obj : Hit), found !! i = Some obj →
        ∃ d, out !! i = Some d
          ∧ d !! "filename"
            = Some (default (PStr "Unknown") (hit_properties obj !! "filename"))
          ∧ d !! "content"
            = Some (default (PStr "") (hit_properties obj !! "content"))
          ∧ d !! "source_url"
            = Some (default (PStr "") (hit_properties obj !! "source_url"))
          ∧ d !! "timestamp"
            = Some (default (PStr "") (hit_properties obj !! "timestamp"))
          ∧ d !! "distance" = Some (hit_distance obj)
          ∧ dom d
            = ({["filename"; "content"; "source_url"; "timestamp"; "distance"]}
               : gset string).
Proof.
  exists (result_dict <$> found). split; [|split].
  - unfold search_collection. rewrite Hembed. cbn [Py.bind Py.ret].
    rewrite search_params_one_filter, Hfound. reflexivity.
  - apply length_fmap.
  - intros i obj Hi. exists (result_dict obj). split.
    + by rewrite list_lookup_fmap, Hi.
    + apply result_dict_entries.
Qed.

(** An exception of the search is passed on. *)
Lemma search_collection_raises (collection : C) (query : string)
    (embed_model : list string → list (list Q)) (limit : Z)
    (fs : option (gmap string pyval)) (v : list Q) (vs : list (list Q)) (e : exn) :
  embed_model [query] = v :: vs →
  query_near_vector collection v (search_params limit fs) = inl e →
  search_collection collection query embed_model limit fs = inl e.
Proof.
  intros Hembed Hraise. unfold search_collection.
  rewrite Hembed. cbn [Py.bind Py.ret]. by rewrite Hraise.
Qed.

End any_collection.

Lemma search_collection_forwards_witness :
  ∃ out,
    search_collection samples.found "fruit" samples.embed_model 10
      (Some {["filename" := PStr "a.txt"]})
    = inr out
    ∧ length out = 2%nat.
Proof.
  destruct (search_collection_forwards samples.found "fruit" samples.embed_model 10
              "filename" (PStr "a.txt") [(1#2)%Q; (0#1)%Q] []
              [samples.hit "a.txt" "text/plain" (1#10)%Q;
               samples.hit "a.txt" "text/html" (3#10)%Q]
              eq_refl eq_refl) as (out & Hout & Hlen & _).
  exists out. split; [exact Hout|exact Hlen].
Defined.

(** C3, refuted as stated: a dict of two filters is not empty, yet the
    request carries no filter at all, and the objects that either entry
    would have excluded are returned. *)
Lemma search_collection_ignores_two_filters :
  let fs : gmap string pyval :=
    <["mime_type" := PStr "text/html"]> {["filename" := PStr "a.txt"]} in
  fs ≠ ∅
  ∧ filters (search_params 10 (Some fs)) = None
  ∧ (∃ out,
       search_collection samples.found "fruit" samples.embed_model 10 (Some fs)
       = inr out
       ∧ (λ d : gmap string pyval, d !! "filename") <$> out
         = [Some (PStr "a.txt"); Some (PStr "b.txt"); Some (PStr "a.txt")])
  ∧ ¬ (∀ (limit : Z) (m : gmap string pyval), m ≠ ∅ →
         ∃ k v, m !! k = Some v
                ∧ filters (search_params limit (Some m))
                  = Some (by_property_equal k v)).
Proof.
  intros fs.
  assert (Hne : fs ≠ ∅) by apply insert_non_empty.
  assert (Hnone : filters (search_params 10 (Some fs)) = None)
    by (vm_compute; reflexivity).
  split; [done|]. split; [done|]. split.
  - eexists. split; vm_compute; reflexivity.
  - intros Hclaim. destruct (Hclaim 10 fs Hne) as (k & v & _ & Hsome).
    rewrite Hnone in Hsome. discriminate.
Qed.

(** * Further properties *)

(** ** Events *)

Lemma contains_raises (d : pyval) (k : string) (e : exn) :
  contains d k = inl e → ∃ msg, e = TypeError msg.
Proof.
  destruct d; unfold contains, Py.raise, Py.ret; intros Hin;
    try discriminate; injection Hin as <-; eauto.
Qed.

Lemma dict_getitem_of_contained (d : pyval) (k : string) (e : exn) :
  contains d k = inr true → dict_getitem d k = inl e → ∃ msg, e = TypeError msg.
Proof.
  destruct d; unfold contains, dict_getitem, Py.raise, Py.ret; intros Hin Hget;
    try discriminate; try (injection Hget as <-; eauto; fail).
  injection Hin as Hin. apply bool_decide_eq_true in Hin as [v Hv].
  rewrite Hv in Hget. discriminate.
Qed.

(** X1. What [_safe] returns is a truthy value or the default: a falsy
    value found at the end of the path is replaced by the default. *)
Theorem _safe_returns_truthy_or_default (d : pyval) (keys : list string)
    (default_val v : pyval)
    (Hret : _safe d keys default_val = inr v) :
  truthy v = true ∨ v = default_val.
Proof.
  revert d Hret. induction keys as [|k keys IH]; intros d.
  - simpl. intros [= <-]. unfold py_or. destruct (truthy d) eqn:Hd; auto.
  - simpl. destruct (contains d k) as [e|[|]]; simpl; [discriminate| |].
    + destruct (dict_getitem d k) as [e|inner]; simpl; [discriminate|]. apply IH.
    + intros [= <-]. by right.
Qed.

(** X2. [_safe] raises no [KeyError]: a key that is missing gives the
    default, and the only exception is the [TypeError] of a value on the path
    that cannot be searched or indexed by a string. *)
Theorem _safe_raises_TypeError_only (d : pyval) (keys : list string)
    (default_val : pyval) (e : exn)
    (Hraise : _safe d keys default_val = inl e) :
  ∃ msg, e = TypeError msg.
Proof.
  revert d Hraise. induction keys as [|k keys IH]; intros d; [discriminate|].
  simpl. destruct (contains d k) as [e'|[|]] eqn:Hin; simpl.
  - intros [= <-]. by eapply contains_raises.
  - destruct (dict_getitem d k) as [e'|inner] eqn:Hget; simpl.
    + intros [= <-]. by eapply dict_getitem_of_contained.
    + apply IH.
  - discriminate.
Qed.

(** X3. On dicts nested in dicts, [_safe] follows the keys: where the key is
    present it goes on with the value stored, where it is missing it returns
    the default; at the end of the keys it returns the value reached, or the
    default if that value is falsy. *)
Theorem _safe_follows_the_path (m : gmap string pyval) (k : string)
    (keys : list string) (default_val : pyval) :
  _safe (PDict m) (k :: keys) default_val
  = match m !! k with
    | Some inner => _safe inner keys default_val
    | None => inr default_val
    end
  ∧ _safe (PDict m) [] default_val
    = inr (if bool_decide (m = ∅) then default_val else PDict m).
Proof.
  split.
  - simpl. destruct (m !! k) as [inner|] eqn:Hk.
    + rewrite bool_decide_eq_true_2 by eauto. reflexivity.
    + rewrite bool_decide_eq_false_2 by (by intros [? ?]). reflexivity.
  - simpl. unfold py_or. simpl. by destruct (bool_decide (m = ∅)).
Qed.

Lemma _safe_returns_truthy_or_default_witness :
  truthy (PStr "x") = true ∨ PStr "x" = PNone.
Proof.
  apply (_safe_returns_truthy_or_default
           (PDict {["a" := PDict {["b" := PStr "x"]}]}) ["a"; "b"] PNone (PStr "x")).
  reflexivity.
Defined.

Lemma _safe_raises_TypeError_only_witness :
  ∃ msg, TypeError "indices must be integers" = TypeError msg.
Proof.
  apply (_safe_raises_TypeError_only (PDict {["a" := PStr "abc"]}) ["a"; "b"] PNone).
  reflexivity.
Defined.

(** A stored zero is not returned. *)
Example _safe_drops_zero :
  _safe (PDict {["usage" := PDict {["tokens" := PInt 0]}]}) ["usage"; "tokens"]
    (PInt 5)
  = inr (PInt 5).
Proof. reflexivity. Qed.

Lemma unexpected_keyword_None (params : list string) (kw : kwargs) :
  unexpected_keyword params kw = None ↔ ∀ k, k ∈ kw.*1 → k ∈ params.
Proof.
  induction kw as [|[k v] kw IH]; simpl.
  - split; [|done]. intros _ k Hk. by apply elem_of_nil in Hk.
  - destruct (bool_decide (k ∈ params)) eqn:Hk.
    + apply bool_decide_eq_true in Hk. rewrite IH. split.
      * intros Hall k' [->|Hk']%elem_of_cons; auto.
      * intros Hall k' Hk'. apply Hall. by right.
    + apply bool_decide_eq_false in Hk. split; [discriminate|].
      intros Hall. destruct Hk. apply Hall. by left.
Qed.

Lemma missing_argument_None (params : list string) (kw : kwargs) :
  missing_argument params kw = None ↔ ∀ p, p ∈ params → p ∈ kw.*1.
Proof.
  induction params as [|p params IH]; simpl.
  - split; [|done]. intros _ k Hk. by apply elem_of_nil in Hk.
  - destruct (bool_decide (p ∈ kw.*1)) eqn:Hp.
    + apply bool_decide_eq_true in Hp. rewrite IH. split.
      * intros Hall p' [->|Hp']%elem_of_cons; auto.
      * intros Hall p' Hp'. apply Hall. by right.
    + apply bool_decide_eq_false in Hp. split; [discriminate|].
      intros Hall. destruct Hp. apply Hall. by left.
Qed.

(** X4. [FinishCompletion.create], called with keyword arguments, returns
    an event exactly when the keywords are its seven parameters, each given
    and no other; every other call raises [TypeError]. *)
Theorem FinishCompletion_create_accepts_its_parameters (kw : kwargs) :
  ((∃ e, FinishCompletion.create kw = inr e)
   ↔ ∀ k, k ∈ kw.*1 ↔ k ∈ FinishCompletion.create_params)
  ∧ ((∃ x, FinishCompletion.create kw = inl x)
     → ∃ msg, FinishCompletion.create kw = inl (TypeError msg)).
Proof.
  unfold FinishCompletion.create, bind_keywords.
  destruct (unexpected_keyword FinishCompletion.create_params kw) as [k|] eqn:Hu.
  - split; [|by eauto]. split; [by intros [e [=]]|].
    intros Hall.
    assert (unexpected_keyword FinishCompletion.create_params kw = None) as Hnone
      by (apply unexpected_keyword_None; intros k'; apply Hall).
    congruence.
  - destruct (missing_argument FinishCompletion.create_params kw) as [p|] eqn:Hm.
    + split; [|by eauto]. split; [by intros [e [=]]|].
      intros Hall.
      assert (missing_argument FinishCompletion.create_params kw = None) as Hnone
        by (apply missing_argument_None; intros p'; apply Hall).
      congruence.
    + split.
      * split; [|by eauto]. intros _ k. split.
        -- by apply unexpected_keyword_None.
        -- by apply missing_argument_None.
      * by intros [x [=]].
Qed.

Lemma py_or_zero_truthy_or_zero (v : pyval) :
  truthy (py_or v (PInt 0)) = true ∨ py_or v (PInt 0) = PInt 0.
Proof. unfold py_or. destruct (truthy v) eqn:Hv; auto. Qed.

(** X5. The metadata of an event that [FinishCompletion.create] returns has
    the five keys model, cost, input_tokens, output_tokens and elapsed_time,
    and under the last four a value that is truthy or the integer 0: a
    [None], an empty or a zero argument is recorded as 0. *)
Theorem FinishCompletion_create_metadata_keys (kw : kwargs) (e : FinishCompletion.t)
    (Hcreate : FinishCompletion.create kw = inr e) :
  dom (FinishCompletion.metadata e)
  = ({["model"; "cost"; "input_tokens"; "output_tokens"; "elapsed_time"]}
     : gset string)
  ∧ ∀ k, k ∈ ["cost"; "input_tokens"; "output_tokens"; "elapsed_time"] →
      ∃ v, FinishCompletion.metadata e !! k = Some v
           ∧ (truthy v = true ∨ v = PInt 0).
Proof.
  unfold FinishCompletion.create in Hcreate.
  destruct (bind_keywords _ _ _) as [x|args]; [discriminate|].
  simpl in Hcreate. injection Hcreate as <-.
  unfold FinishCompletion.create_body, FinishCompletion.init. simpl. split.
  - reflexivity.
  - intros k Hk.
    repeat (apply elem_of_cons in Hk as [->|Hk]);
      [..|by apply elem_of_nil in Hk];
      eexists; (split; [reflexivity|apply py_or_zero_truthy_or_zero]).
Qed.

Lemma FinishCompletion_create_metadata_keys_witness :
  dom (FinishCompletion.metadata
         (FinishCompletion.create_body (PStr "a") (PStr "m") (PStr "gpt") PNone
            PNone (PInt 7) (PFloat (0#1)%Q)))
  = ({["model"; "cost"; "input_tokens"; "output_tokens"; "elapsed_time"]}
     : gset string)
  ∧ ∀ k, k ∈ ["cost"; "input_tokens"; "output_tokens"; "elapsed_time"] →
      ∃ v, FinishCompletion.metadata
             (FinishCompletion.create_body (PStr "a") (PStr "m") (PStr "gpt") PNone
                PNone (PInt 7) (PFloat (0#1)%Q)) !! k = Some v
           ∧ (truthy v = true ∨ v = PInt 0).
Proof.
  apply (FinishCompletion_create_metadata_keys
           [("agent", PStr "a"); ("llm_message", PStr "m"); ("model", PStr "gpt");
            ("cost", PNone); ("input_tokens", PNone); ("output_tokens", PInt 7);
            ("elapsed_time", PFloat (0#1)%Q)]).
  reflexivity.
Defined.

(** A token count of [None] and an elapsed time of 0.0 are both recorded as
    the integer 0. *)
Example FinishCompletion_create_None_is_zero :
  FinishCompletion.metadata
    (FinishCompletion.create_body (PStr "a") (PStr "m") (PStr "gpt") PNone
       PNone (PInt 7) (PFloat (0#1)%Q))
  = <["elapsed_time" := PInt 0]>
    (<["output_tokens" := PInt 7]>
    (<["input_tokens" := PInt 0]>
    (<["cost" := PInt 0]> {["model" := PStr "gpt"]}))).
Proof. reflexivity. Qed.

(** X6. The thirteen event classes with a constructor of their own set
    thirteen different type strings: the type of an event tells its class,
    whatever the other arguments. *)
Theorem event_types_are_distinct (agent message name : string) (depth : Z)
    (flag : bool) (any : pyval) (d : gmap string pyval) (messages : list pyval) :
  NoDup
    [ type (Prompt.event (Prompt.init agent message depth flag any flag));
      type (PromptStarted.init agent message depth);
      type (ResetHistory.init agent);
      type (Output.init agent message depth);
      type (ChatOutput.init agent d depth);
      type (ToolCall.event (ToolCall.init agent name d depth));
      type (ToolResult.event (ToolResult.init agent name any depth));
      type (StartCompletion.init agent);
      type (FinishCompletion.event (FinishCompletion.init (PStr agent) any d));
      type (TurnEnd.init agent messages d);
      type (SetState.init agent d);
      type (AddChild.event (AddChild.init agent any flag));
      type (WaitForInput.init agent d);
      type (ResumeWithInput.init agent d) ].
Proof.
  cbn [type Prompt.event Prompt.init PromptStarted.init ResetHistory.init
       Output.init ChatOutput.init ToolCall.event ToolCall.init ToolResult.event
       ToolResult.init StartCompletion.init FinishCompletion.event
       FinishCompletion.init TurnEnd.init SetState.init AddChild.event
       AddChild.init WaitForInput.init ResumeWithInput.init].
  apply (bool_decide_unpack _). vm_compute. reflexivity.
Qed.

(** X7. [TurnEnd.result] returns a value exactly when there is a last
    message, that message is a dict and the dict has the key content; the
    value is the one stored there. *)
Theorem TurnEnd_result_returns (agent : string) (messages : list pyval)
    (context_variables : gmap string pyval) (v : pyval) :
  TurnEnd.result (TurnEnd.init agent messages context_variables) = inr v
  ↔ ∃ (earlier : list pyval) (m : gmap string pyval),
      messages = (earlier ++ [PDict m])%list ∧ m !! "content" = Some v.
Proof.
  assert (Hrun : TurnEnd.result (TurnEnd.init agent messages context_variables)
                 = Py.bind (list_getitem (PList messages) (-1))
                     (λ m, dict_getitem m "content")) by reflexivity.
  rewrite Hrun. clear Hrun.
  destruct messages as [|x xs] using rev_ind.
  - rewrite list_getitem_empty. simpl. split; [discriminate|].
    intros (earlier & m & Heq & _). by destruct earlier.
  - clear IHxs. rewrite list_getitem_last. simpl. split.
    + destruct x as [| | | | | |m]; simpl; try discriminate.
      destruct (m !! "content") as [w|] eqn:Hw; [|discriminate].
      intros [= <-]. eauto.
    + intros (earlier & m & Heq & Hv).
      apply app_inj_tail in Heq as [_ ->]. simpl. by rewrite Hv.
Qed.

Lemma TurnEnd_result_returns_witness :
  TurnEnd.result (TurnEnd.init "a" [PDict {["content" := PStr "hi"]}] ∅)
  = inr (PStr "hi")
  ↔ ∃ (earlier : list pyval) (m : gmap string pyval),
      [PDict {["content" := PStr "hi"]}] = (earlier ++ [PDict m])%list
      ∧ m !! "content" = Some (PStr "hi").
Proof. apply TurnEnd_result_returns. Defined.

(** ** The token counter *)

(** The response of a completion that used [p] prompt tokens and [c]
    completion tokens. *)
Lemma on_llm_end_usage (counter : TokenCounterStdOutCallback.t) (p c : Z) :
  TokenCounterStdOutCallback.on_llm_end counter
    (mkLLMResult (Some {["token_usage" :=
       <["completion_tokens" := c]> {["prompt_tokens" := p]}]}))
  = TokenCounterStdOutCallback.mk
      (TokenCounterStdOutCallback.total_input_tokens counter + p)
      (TokenCounterStdOutCallback.total_output_tokens counter + c).
Proof.
  unfold TokenCounterStdOutCallback.on_llm_end. cbn [llm_output].
  rewrite bool_decide_eq_false_2 by apply map_non_empty_singleton.
  reflexivity.
Qed.

(** X8. After the completions of a run have been reported, the counter
    holds what it held before plus the sums of their prompt tokens and of
    their completion tokens. *)
Theorem token_counter_sums (counter : TokenCounterStdOutCallback.t)
    (usages : list (Z * Z)) :
  foldl TokenCounterStdOutCallback.on_llm_end counter
    ((λ u, mkLLMResult (Some {["token_usage" :=
        <["completion_tokens" := u.2]> {["prompt_tokens" := u.1]}]})) <$> usages)
  = TokenCounterStdOutCallback.mk
      (TokenCounterStdOutCallback.total_input_tokens counter
       + foldr Z.add 0 (usages.*1))
      (TokenCounterStdOutCallback.total_output_tokens counter
       + foldr Z.add 0 (usages.*2)).
Proof.
  revert counter. induction usages as [|[p c] usages IH]; intros counter.
  - simpl. destruct counter as [a b]. simpl. by rewrite !Z.add_0_r.
  - rewrite fmap_cons. cbn [foldl]. rewrite on_llm_end_usage, IH. simpl.
    by rewrite !Z.add_assoc.
Qed.

(** X9. A response without usage data, be it that [llm_output] is missing
    or empty or has no entry token_usage, leaves the counter as it is. *)
Theorem token_counter_ignores_missing_usage (counter : TokenCounterStdOutCallback.t)
    (response : LLMResult)
    (Hnone : llm_output response = None
             ∨ ∃ out, llm_output response = Some out ∧ out !! "token_usage" = None) :
  TokenCounterStdOutCallback.on_llm_end counter response = counter.
Proof.
  unfold TokenCounterStdOutCallback.on_llm_end.
  destruct Hnone as [->|(out & -> & Hout)]; [done|].
  destruct (bool_decide (out = ∅)); [done|].
  rewrite Hout. simpl. rewrite !lookup_empty. simpl.
  destruct counter as [a b]. simpl. by rewrite !Z.add_0_r.
Qed.

Lemma token_counter_ignores_missing_usage_witness :
  TokenCounterStdOutCallback.on_llm_end (TokenCounterStdOutCallback.mk 3 4)
    (mkLLMResult (Some {["model_name" := ∅]}))
  = TokenCounterStdOutCallback.mk 3 4.
Proof.
  apply token_counter_ignores_missing_usage.
  right. eexists. split; reflexivity.
Defined.

(** ** The chunker *)

Lemma split_on_not_nil (sep : Ascii.ascii) (s : string) : split_on sep s ≠ [].
Proof.
  destruct s as [|c rest]; simpl; [done|].
  destruct (Ascii.eqb c sep); [done|]. by destruct (split_on sep rest).
Qed.

Lemma join_split_on (sep : Ascii.ascii) (s : string) :
  join (String sep EmptyString) (split_on sep s) = s.
Proof.
  induction s as [|c rest IH]; [done|].
  cbn [split_on]. destruct (Ascii.eqb c sep) eqn:Hc.
  - apply Ascii.eqb_eq in Hc as ->.
    pose proof (split_on_not_nil sep rest) as Hne.
    destruct (split_on sep rest) as [|piece pieces]; [done|].
    cbn [join]. cbn [join] in IH. rewrite IH. reflexivity.
  - pose proof (split_on_not_nil sep rest) as Hne.
    destruct (split_on sep rest) as [|piece pieces]; [done|].
    cbn [join] in *. destruct pieces as [|piece' pieces].
    + by rewrite IH.
    + rewrite <- IH. reflexivity.
Qed.

Lemma split_on_pieces (sep : Ascii.ascii) (s : string) :
  Forall (λ piece, ∀ a b, piece ≠ a ++ String sep b) (split_on sep s).
Proof.
  induction s as [|c rest IH]; cbn [split_on].
  - constructor; [|done]. intros a b. by destruct a.
  - destruct (Ascii.eqb c sep) eqn:Hc.
    + constructor; [|done]. intros a b. by destruct a.
    + apply Ascii.eqb_neq in Hc.
      destruct (split_on sep rest) as [|piece pieces].
      * constructor; [|done]. intros [|a0 a] b; simpl; intros [=]; [done|].
        by destruct a.
      * apply Forall_cons in IH as [Hpiece Hpieces].
        constructor; [|done]. intros [|a0 a] b; simpl; intros [=]; [done|].
        by eapply Hpiece.
Qed.

Lemma split_on_length (sep : Ascii.ascii) (s : string) :
  length (split_on sep s)
  = S (length (List.filter (λ c, Ascii.eqb c sep) (String.list_ascii_of_string s))).
Proof.
  induction s as [|c rest IH]; [done|].
  cbn [split_on String.list_ascii_of_string List.filter].
  destruct (Ascii.eqb c sep); [by rewrite length_cons, IH|].
  pose proof (split_on_not_nil sep rest) as Hne.
  destruct (split_on sep rest) as [|piece pieces]; [done|]. exact IH.
Qed.

(** X10. The delimiters that [init_chunker] hands to the chunker, joined
    by commas again, are the string it was given; the threshold is passed
    through. *)
Theorem init_chunker_join_round_trip (threshold : Q) (delimiters : string) :
  join "," (delim (init_chunker threshold delimiters)) = delimiters
  ∧ rag_helper.threshold (init_chunker threshold delimiters) = threshold.
Proof.
  split; [|reflexivity]. unfold init_chunker. cbn [delim].
  exact (join_split_on comma delimiters).
Qed.

(** X11. [init_chunker] sets one delimiter more than the string has commas,
    so never none (the empty string gives the one delimiter ""), and no
    delimiter contains a comma. *)
Theorem init_chunker_delimiters (threshold : Q) (delimiters : string) :
  length (delim (init_chunker threshold delimiters))
  = S (length (List.filter (λ c, Ascii.eqb c comma)
                 (String.list_ascii_of_string delimiters)))
  ∧ Forall (λ piece, ∀ a b, piece ≠ a ++ "," ++ b)
      (delim (init_chunker threshold delimiters))
  ∧ delim (init_chunker threshold "") = [""].
Proof.
  split; [apply split_on_length|]. split; [apply split_on_pieces|reflexivity].
Qed.

Example init_chunker_example :
  delim (init_chunker (1#2)%Q ".,!,,?") = ["."; "!"; ""; "?"].
Proof. reflexivity. Qed.

(** ** Documents in the reference client *)

Lemma Mem_over_all (collection : string) (f : option Filter) (s : Mem.State)
    (c : Mem.Collection) :
  Mem.collections s !! collection = Some c →
  aggregate_over_all collection f s
  = inr (Z.of_nat (length (Mem.matching f (Mem.objects c)))).
Proof. intros Hc. simpl. unfold Mem.over_all. by rewrite Hc. Qed.

Lemma matching_nil_iff (p v : string) (os : list Object) :
  Mem.matching (Some (by_property_equal p (PStr v))) os = []
  ↔ Forall (λ o, properties o !! p ≠ Some (PStr v)) os.
Proof.
  split; [|apply matching_none].
  induction os as [|o os IH]; [done|].
  unfold Mem.matching in *. cbn [List.filter].
  destruct (satisfies _ (properties o)) eqn:Ho; [done|].
  intros Hrest. constructor; [|by apply IH].
  by apply satisfies_equal_str_false.
Qed.

(** X12. On the reference client, for a collection that exists,
    [check_document_in_index] returns [True] if some object has the document
    id and [False] if none has. *)
Theorem check_document_in_index_spec (s : Mem.State) (collection : string)
    (c : Mem.Collection) (document_id : string)
    (Hc : Mem.collections s !! collection = Some c) :
  (Exists (λ o, properties o !! "document_id" = Some (PStr document_id))
     (Mem.objects c) →
   check_document_in_index collection document_id s = inr true)
  ∧ (Forall (λ o, properties o !! "document_id" ≠ Some (PStr document_id))
       (Mem.objects c) →
     check_document_in_index collection document_id s = inr false).
Proof.
  unfold check_document_in_index.
  rewrite (Mem_fetch_one _ _ _ c) by done. unfold document_id_is. split.
  - intros Hsome. apply matching_some in Hsome.
    by destruct (Mem.matching _ _).
  - intros Hnone. by rewrite matching_none.
Qed.

Lemma check_document_in_index_spec_witness :
  (Exists (λ o, properties o !! "document_id" = Some (PStr "d2"))
     (Mem.objects samples.docs) →
   check_document_in_index "Docs" "d2" (samples.db 100) = inr true)
  ∧ (Forall (λ o, properties o !! "document_id" ≠ Some (PStr "d2"))
       (Mem.objects samples.docs) →
     check_document_in_index "Docs" "d2" (samples.db 100) = inr false).
Proof.
  apply (check_document_in_index_spec (samples.db 100) "Docs" samples.docs "d2").
  reflexivity.
Defined.

Section any_client_lookup.

Context {St : Type} `{!Client St}.

(** X13. For every client, the two look-ups agree: where
    [check_document_in_index] answers [True], what [check_document_exists]
    returns is [(True, "unchanged")] or [(True, "changed")]; where it
    answers [False], [(True, "duplicate")] or [(False, "new")]. *)
Theorem check_document_exists_agrees_with_index
    (collection document_id fingerprint : string) (s : St) (indexed flag : bool)
    (status : string)
    (Hindex : check_document_in_index collection document_id s = inr indexed)
    (Hexists : check_document_exists collection document_id fingerprint s
               = inr (flag, status)) :
  if indexed
  then (flag, status) = (true, "unchanged") ∨ (flag, status) = (true, "changed")
  else (flag, status) = (true, "duplicate") ∨ (flag, status) = (false, "new").
Proof.
  revert Hindex Hexists. unfold check_document_in_index, check_document_exists, Py.bind.
  destruct (query_fetch_objects collection 1 (Some (document_id_is document_id)) s)
    as [e|[|first rest]]; [intros [=]| |].
  - intros [= <-].
    destruct (query_fetch_objects collection 1
                (Some (by_property_equal "fingerprint" (PStr fingerprint))) s)
      as [e|[|? ?]]; [intros [=]| |]; intros [= <- <-]; auto.
  - intros [= <-].
    destruct (dict_getitem _ _) as [e|fp]; [intros [=]|].
    destruct (eq_str fp fingerprint); intros [= <- <-]; auto.
Qed.

End any_client_lookup.

Lemma check_document_exists_agrees_with_index_witness :
  (true, "unchanged") = (true, "unchanged") ∨ (true, "unchanged") = (true, "changed").
Proof.
  apply (check_document_exists_agrees_with_index (St := Mem.State)
           "Docs" "d1" "fpA" (samples.db 100) true true "unchanged");
    vm_compute; reflexivity.
Defined.

(** ** Deleting a document on the reference client *)

Lemma remove_first_all (n : nat) (f : Filter) (os : list Object) :
  (length (Mem.matching (Some f) os) ≤ n)%nat →
  Mem.remove_first n f os
  = List.filter (λ o, negb (satisfies (Some f) (properties o))) os.
Proof.
  revert n. induction os as [|o os IH]; intros n; [done|].
  unfold Mem.matching in *. cbn [Mem.remove_first List.filter].
  destruct (satisfies (Some f) (properties o)); cbn [negb length].
  - destruct n as [|n]; [lia|]. intros Hle. apply IH. lia.
  - intros Hle. f_equal. by apply IH.
Qed.

Lemma remove_first_matching (n : nat) (f : Filter) (os : list Object) :
  length (Mem.matching (Some f) (Mem.remove_first n f os))
  = (length (Mem.matching (Some f) os) - n)%nat.
Proof.
  revert n. induction os as [|o os IH]; intros n; [done|].
  unfold Mem.matching in *. cbn [Mem.remove_first List.filter].
  destruct (satisfies (Some f) (properties o)) eqn:Ho.
  - destruct n as [|n].
    + cbn [List.filter]. rewrite Ho. cbn [length]. lia.
    + rewrite IH. cbn [length]. lia.
  - cbn [List.filter]. rewrite Ho. apply IH.
Qed.

Lemma remove_first_others (n : nat) (f : Filter) (os : list Object) :
  List.filter (λ o, negb (satisfies (Some f) (properties o)))
    (Mem.remove_first n f os)
  = List.filter (λ o, negb (satisfies (Some f) (properties o))) os.
Proof.
  revert n. induction os as [|o os IH]; intros n; [done|].
  cbn [Mem.remove_first List.filter].
  destruct (satisfies (Some f) (properties o)) eqn:Ho; cbn [negb].
  - destruct n as [|n]; [|apply IH].
    cbn [List.filter]. by rewrite Ho.
  - cbn [List.filter]. rewrite Ho. cbn [negb]. f_equal. apply IH.
Qed.

Lemma matching_after_filter (f : Filter) (os : list Object) :
  Mem.matching (Some f)
    (List.filter (λ o, negb (satisfies (Some f) (properties o))) os) = [].
Proof.
  unfold Mem.matching. induction os as [|o os IH]; [done|].
  cbn [List.filter].
  destruct (satisfies (Some f) (properties o)) eqn:Ho; cbn [negb]; [done|].
  cbn [List.filter]. by rewrite Ho.
Qed.

Lemma Mem_delete_many (collection : string) (f : Filter) (s : Mem.State)
    (c : Mem.Collection) :
  Mem.collections s !! collection = Some c →
  data_delete_many collection f s
  = (let n := Nat.min (length (Mem.matching (Some f) (Mem.objects c)))
                (Mem.query_maximum_results s) in
     (inr (mkDeleteManyReturn 0 (Z.of_nat n) (Z.of_nat n)),
      Mem.set_collections s
        (<[collection := Mem.mkCollection (Mem.config c)
                           (Mem.remove_first n f (Mem.objects c))]>
           (Mem.collections s)))).
Proof. intros Hc. simpl. unfold Mem.delete_many. by rewrite Hc. Qed.

(** X14. On the reference client, when the document has no more chunks than
    the server removes in one request, [delete_document_from_index] returns
    their number and leaves the collection with the objects of the other
    documents, in their order; [check_document_in_index] then answers
    [False]. *)
Theorem delete_document_from_index_removes_all (s : Mem.State)
    (collection document_id filename : string) (c : Mem.Collection)
    (Hc : Mem.collections s !! collection = Some c)
    (Hfew : (length (Mem.matching (Some (document_id_is document_id)) (Mem.objects c))
             ≤ Mem.query_maximum_results s)%nat) :
  let s' :=
    Mem.set_collections s
      (<[collection :=
           Mem.mkCollection (Mem.config c)
             (List.filter
                (λ o, negb (satisfies (Some (document_id_is document_id))
                              (properties o)))
                (Mem.objects c))]>
         (Mem.collections s)) in
  delete_document_from_index collection document_id filename s
  = (inr (Z.of_nat (length (Mem.matching (Some (document_id_is document_id))
                              (Mem.objects c)))),
     s')
  ∧ check_document_in_index collection document_id s' = inr false.
Proof.
  intros s'. split.
  - unfold delete_document_from_index. db_step.
    rewrite (Mem_over_all _ _ _ c) by done.
    unfold Db.bind at 1. rewrite (Mem_delete_many _ _ _ c) by done.
    cbv zeta. rewrite Nat.min_l by done. cbn [successful].
    rewrite Z.eqb_refl. cbn [negb]. unfold Db.ret, s'.
    by rewrite remove_first_all.
  - unfold check_document_in_index.
    rewrite (Mem_fetch_one _ _ _
               (Mem.mkCollection (Mem.config c)
                  (List.filter
                     (λ o, negb (satisfies (Some (document_id_is document_id))
                                   (properties o)))
                     (Mem.objects c))))
      by (unfold s'; simpl; apply lookup_insert_eq).
    cbn [Mem.objects]. by rewrite matching_after_filter.
Qed.

Lemma delete_document_from_index_removes_all_witness :
  delete_document_from_index "Docs" "d1" "a.txt" (samples.db 3)
  = (inr 3,
     Mem.mkState
       {["Docs" := Mem.mkCollection (standard_config COSINE)
                     [samples.chunk "d2" "fpB" "b.txt" 0]]} 3)
  ∧ check_document_in_index "Docs" "d1"
      (Mem.mkState
         {["Docs" := Mem.mkCollection (standard_config COSINE)
                       [samples.chunk "d2" "fpB" "b.txt" 0]]} 3)
    = inr false.
Proof.
  apply (delete_document_from_index_removes_all (samples.db 3) "Docs" "d1" "a.txt"
           samples.docs).
  - reflexivity.
  - vm_compute. lia.
Defined.

(** X15. On the reference client, when the document has more chunks than
    the server removes in one request, [delete_document_from_index] raises
    [RuntimeError] and the deletion stays: as many chunks as one request
    removes are gone, the others of the document are still in the
    collection, and so are the objects of the other documents. *)
Theorem delete_document_from_index_partial (s : Mem.State)
    (collection document_id filename : string) (c : Mem.Collection)
    (Hc : Mem.collections s !! collection = Some c)
    (Hmany : (Mem.query_maximum_results s
              < length (Mem.matching (Some (document_id_is document_id))
                          (Mem.objects c)))%nat) :
  ∃ s' c',
    delete_document_from_index collection document_id filename s
    = (inl (RuntimeError
              ("Deleted " ++ pretty (Z.of_nat (Mem.query_maximum_results s))
               ++ " chunks but expected "
               ++ pretty (Z.of_nat (length (Mem.matching
                                              (Some (document_id_is document_id))
                                              (Mem.objects c)))))),
       s')
    ∧ Mem.collections s' !! collection = Some c'
    ∧ length (Mem.matching (Some (document_id_is document_id)) (Mem.objects c'))
      = (length (Mem.matching (Some (document_id_is document_id)) (Mem.objects c))
         - Mem.query_maximum_results s)%nat
    ∧ List.filter (λ o, negb (satisfies (Some (document_id_is document_id))
                                (properties o))) (Mem.objects c')
      = List.filter (λ o, negb (satisfies (Some (document_id_is document_id))
                                  (properties o))) (Mem.objects c).
Proof.
  eexists _, (Mem.mkCollection (Mem.config c)
                (Mem.remove_first (Mem.query_maximum_results s)
                   (document_id_is document_id) (Mem.objects c))).
  split; [|split; [|split]].
  - unfold delete_document_from_index. db_step.
    rewrite (Mem_over_all _ _ _ c) by done.
    unfold Db.bind at 1. rewrite (Mem_delete_many _ _ _ c) by done.
    cbv zeta. rewrite Nat.min_r by lia. cbn [successful].
    destruct (_ =? _)%Z eqn:Heq; [apply Z.eqb_eq in Heq; lia|].
    cbn [negb]. unfold Db.raise. reflexivity.
  - simpl. apply lookup_insert_eq.
  - cbn [Mem.objects]. apply remove_first_matching.
  - cbn [Mem.objects]. apply remove_first_others.
Qed.

Lemma delete_document_from_index_partial_witness :
  ∃ s' c',
    delete_document_from_index "Docs" "d1" "a.txt" (samples.db 2)
    = (inl (RuntimeError "Deleted 2 chunks but expected 3"), s')
    ∧ Mem.collections s' !! "Docs" = Some c'
    ∧ length (Mem.matching (Some (document_id_is "d1")) (Mem.objects c')) = 1%nat
    ∧ List.filter (λ o, negb (satisfies (Some (document_id_is "d1")) (properties o)))
        (Mem.objects c')
      = [samples.chunk "d2" "fpB" "b.txt" 0].
Proof.
  destruct (delete_document_from_index_partial (samples.db 2) "Docs" "d1" "a.txt"
              samples.docs eq_refl) as (s' & c' & Hrun & Hc' & Hlen & Hothers).
  - vm_compute. lia.
  - exists s', c'. split; [exact Hrun|]. split; [exact Hc'|].
    split; [exact Hlen|exact Hothers].
Defined.

(** ** Renaming on the reference client: the other cases *)

(** X16. On the reference client, renaming a collection to its own name
    with [overwrite] set returns [True] and leaves the database without the
    collection; the other collections are as they were. *)
Theorem rename_collection_to_itself (s : Mem.State) (name : string)
    (c : Mem.Collection)
    (Hc : Mem.collections s !! name = Some c) :
  rename_collection name name true s
  = (inr true, Mem.set_collections s (base.delete name (Mem.collections s))).
Proof.
  unfold rename_collection. db_step.
  rewrite (Mem_exists_Some _ _ c) by done. cbn [negb]. db_step.
  rewrite (Mem_exists_Some _ _ c) by done. cbn [negb andb].
  unfold Db.bind at 1. rewrite Mem_delete.
  unfold Db.bind at 1. unfold create_collection. db_step.
  rewrite Mem_exists_None by (simpl; apply lookup_delete_eq). cbn [negb].
  rewrite Mem_create_fresh by (simpl; apply lookup_delete_eq).
  db_step.
  rewrite (Mem_iterate _ _ (Mem.mkCollection (standard_config COSINE) []))
    by (simpl; apply lookup_insert_eq).
  cbn [Mem.objects Db.for_each]. unfold Db.bind at 1, Db.ret at 1.
  unfold Db.bind at 1. rewrite Mem_delete. unfold Db.ret.
  destruct s as [m cap]. unfold Mem.set_collections. simpl.
  do 2 f_equal. rewrite delete_insert_eq. apply delete_delete_eq.
Qed.

Lemma rename_collection_to_itself_witness :
  rename_collection "Docs" "Docs" true (samples.db 100)
  = (inr true,
     Mem.set_collections (samples.db 100)
       (base.delete "Docs" (Mem.collections (samples.db 100)))).
Proof.
  apply (rename_collection_to_itself (samples.db 100) "Docs" samples.docs).
  reflexivity.
Defined.

(** The copy stops at the first object without a vector named "default";
    the copies made before it stay in the target. *)
Lemma Mem_copy_loop_stops (target_name : string) (good : list Object)
    (bad : Object) (rest : list Object) (cfg : CollectionConfig)
    (acc : list Object) (s : Mem.State) :
  Mem.collections s !! target_name = Some (Mem.mkCollection cfg acc) →
  Forall (λ o, is_Some (vector o !! "default")) good →
  vector bad !! "default" = None →
  Db.for_each (good ++ bad :: rest)%list (λ obj,
    let* v := Db.query (λ _, default_vector obj) in
    batch_add_object target_name (properties obj) v)%db s
  = (inl (KeyError "default"),
     Mem.set_collections s
       (<[target_name := Mem.mkCollection cfg (acc ++ (default_only <$> good))]>
          (Mem.collections s))).
Proof.
  revert acc s. induction good as [|o good IH]; intros acc s Hlook Hall Hbad.
  - cbn [app Db.for_each]. unfold Db.bind at 1.
    unfold Db.bind at 1, Db.query at 1, default_vector. rewrite Hbad.
    unfold Py.raise. rewrite fmap_nil, app_nil_r.
    rewrite insert_id by done. by rewrite Mem_state_eta.
  - apply Forall_cons in Hall as [[v Hv] Hall].
    rewrite <- app_comm_cons. cbn [Db.for_each]. unfold Db.bind at 1.
    unfold Db.bind at 1, Db.query at 1, default_vector. rewrite Hv. simpl.
    unfold Mem.add_object at 1. rewrite Hlook. cbn [Mem.config Mem.objects].
    rewrite (IH (acc ++ [mkObject (properties o) {["default" := v]}])%list);
      [|by (simpl; rewrite lookup_insert_eq)|done|done].
    f_equal. destruct s as [m cap]. unfold Mem.set_collections. simpl.
    rewrite insert_insert_eq. do 3 f_equal.
    rewrite <- app_assoc. simpl. do 2 f_equal.
    unfold default_only. by rewrite Hv.
Qed.

(** X17. On the reference client, when an object of the source has no
    vector named "default", [rename_collection] raises [KeyError] and the
    source collection is still there, unchanged; the target, though, has
    been replaced: it is a new collection with the copies of the objects
    that come before that object, and what it held before is lost. *)
Theorem rename_collection_stops_at_missing_vector (s : Mem.State)
    (source_name target_name : string) (overwrite : bool) (c : Mem.Collection)
    (good : list Object) (bad : Object) (rest : list Object)
    (Hdistinct : source_name ≠ target_name)
    (Hsource : Mem.collections s !! source_name = Some c)
    (Htarget : Mem.collections s !! target_name = None ∨ overwrite = true)
    (Hobjects : Mem.objects c = (good ++ bad :: rest)%list)
    (Hgood : Forall (λ o, is_Some (vector o !! "default")) good)
    (Hbad : vector bad !! "default" = None) :
  rename_collection source_name target_name overwrite s
  = (inl (KeyError "default"),
     Mem.set_collections s
       (<[target_name := Mem.mkCollection (standard_config COSINE)
                           (default_only <$> good)]>
          (Mem.collections s))).
Proof.
  assert (Hcopy : ∀ s1 : Mem.State,
    Mem.collections s1 !! target_name = None →
    Mem.collections s1 !! source_name = Some c →
    (let* _ := create_collection target_name COSINE in
     let* objs := Db.query (iterator source_name true) in
     let* _ :=
       Db.for_each objs (λ obj,
         let* v := Db.query (λ _, default_vector obj) in
         batch_add_object target_name (properties obj) v) in
     let* _ := collections_delete source_name in
     Db.ret true)%db s1
    = (inl (KeyError "default"),
       Mem.set_collections s1
         (<[target_name := Mem.mkCollection (standard_config COSINE)
                             (default_only <$> good)]>
            (Mem.collections s1)))).
  { intros s1 Hnone Hsome.
    unfold Db.bind at 1. unfold create_collection. db_step.
    rewrite Mem_exists_None by done. cbn [negb].
    rewrite Mem_create_fresh by done.
    db_step. rewrite (Mem_iterate _ _ c) by (by simpl; rewrite lookup_insert_ne).
    unfold Db.bind at 1. rewrite Hobjects.
    rewrite (Mem_copy_loop_stops target_name good bad rest (standard_config COSINE) []);
      [|by (simpl; rewrite lookup_insert_eq)|done|done].
    destruct s1 as [m1 cap]. unfold Mem.set_collections. simpl.
    by rewrite insert_insert_eq. }
  unfold rename_collection. db_step.
  rewrite (Mem_exists_Some _ _ c) by done. cbn [negb]. db_step.
  destruct (Mem.collections s !! target_name) as [old|] eqn:Hold.
  - destruct Htarget as [[=]| ->].
    rewrite (Mem_exists_Some _ _ old) by done. cbn [negb andb].
    unfold Db.bind at 1. rewrite Mem_delete.
    rewrite Hcopy.
    + destruct s as [m cap]. unfold Mem.set_collections. simpl.
      by rewrite insert_delete_eq.
    + simpl. apply lookup_delete_eq.
    + simpl. by rewrite lookup_delete_ne.
  - rewrite Mem_exists_None by done. cbn [negb andb].
    unfold Db.bind at 1, Db.ret at 1. by rewrite Hcopy.
Qed.

Lemma rename_collection_stops_at_missing_vector_witness :
  rename_collection "Docs" "Archive" false samples.named_only_db
  = (inl (KeyError "default"),
     Mem.set_collections samples.named_only_db
       (<["Archive" := Mem.mkCollection (standard_config COSINE) (default_only <$> [])]>
          (Mem.collections samples.named_only_db))).
Proof.
  apply (rename_collection_stops_at_missing_vector samples.named_only_db
           "Docs" "Archive" false
           (Mem.mkCollection (standard_config COSINE)
              [mkObject {["document_id" := PStr "d1"]} {["title" := [(1#1)%Q]]}])
           [] (mkObject {["document_id" := PStr "d1"]} {["title" := [(1#1)%Q]]}) []).
  - discriminate.
  - reflexivity.
  - by left.
  - reflexivity.
  - constructor.
  - reflexivity.
Defined.

(** ** Listing the collections *)

(** X18. On the reference client, [list_collections] returns each name
    once, and a name is in the list exactly when [collections.exists]
    answers [True] for it. *)
Theorem list_collections_lists_what_exists (s : Mem.State) :
  ∃ names, list_collections s = inr names
    ∧ NoDup names
    ∧ ∀ name, name ∈ names ↔ collections_exists name s = inr true.
Proof.
  exists ((map_to_list (Mem.collections s)).*1). split; [reflexivity|].
  split; [apply NoDup_fst_map_to_list|].
  intros name. rewrite Mem_exists. split.
  - intros Hin. apply list_elem_of_fmap in Hin as [[k c] [-> Hin]]. simpl.
    apply elem_of_map_to_list in Hin. rewrite Hin.
    by rewrite bool_decide_eq_true_2.
  - intros [= Hin]. apply bool_decide_eq_true in Hin as [c Hc].
    apply list_elem_of_fmap. exists (name, c). split; [done|].
    by apply elem_of_map_to_list.
Qed.

(** X19. On the reference client, after a rename that succeeds (the names
    differ, the source exists, the target is free or may be overwritten, and
    every object has its "default" vector), [list_collections] has the
    target name and no longer the source name, and any other name is listed
    after the rename exactly if it was before. *)
Theorem list_collections_after_rename (s s' : Mem.State)
    (source_name target_name : string) (overwrite : bool) (c : Mem.Collection)
    (Hdistinct : source_name ≠ target_name)
    (Hsource : Mem.collections s !! source_name = Some c)
    (Htarget : Mem.collections s !! target_name = None ∨ overwrite = true)
    (Hvectors : Forall (λ o, is_Some (vector o !! "default")) (Mem.objects c))
    (Hrun : (rename_collection source_name target_name overwrite s).2 = s') :
  ∃ before after,
    list_collections s = inr before ∧ list_collections s' = inr after
    ∧ target_name ∈ after ∧ (source_name ∉ after)
    ∧ ∀ name, name ≠ source_name → name ≠ target_name →
        (name ∈ after ↔ name ∈ before).
Proof.
  rewrite (rename_collection_run s source_name target_name overwrite c) in Hrun
    by done.
  simpl in Hrun. subst s'.
  exists ((map_to_list (Mem.collections s)).*1). eexists.
  split; [reflexivity|]. split; [reflexivity|].
  assert (Hin : ∀ (m : gmap string Mem.Collection) name,
            name ∈ (map_to_list m).*1 ↔ is_Some (m !! name)).
  { intros m name. split.
    - intros Hk. apply list_elem_of_fmap in Hk as [[k x] [-> Hk]]. simpl.
      apply elem_of_map_to_list in Hk. eauto.
    - intros [x Hx]. apply list_elem_of_fmap. exists (name, x).
      split; [done|]. by apply elem_of_map_to_list. }
  destruct s as [m cap]. unfold Mem.set_collections. simpl in *.
  split; [|split].
  - apply Hin. rewrite lookup_insert_eq. eauto.
  - rewrite Hin. rewrite lookup_insert_ne by done. rewrite lookup_delete_eq.
    by intros [? ?].
  - intros name Hs Ht. rewrite !Hin.
    rewrite lookup_insert_ne by done. by rewrite lookup_delete_ne.
Qed.

Lemma list_collections_after_rename_witness :
  ∃ before after,
    list_collections (samples.db 100) = inr before
    ∧ list_collections (rename_collection "Docs" "Archive" false (samples.db 100)).2
      = inr after
    ∧ "Archive" ∈ after ∧ ("Docs" ∉ after)
    ∧ ∀ name, name ≠ "Docs" → name ≠ "Archive" → (name ∈ after ↔ name ∈ before).
Proof.
  apply (list_collections_after_rename (samples.db 100) _ "Docs" "Archive" false
           samples.docs).
  - discriminate.
  - reflexivity.
  - by left.
  - repeat constructor; eexists; reflexivity.
  - reflexivity.
Defined.
